(** * table_all_reml: REML report tabulation

    A shallow embedding of [scripts/table_all_reml.py] and the properties of
    its filename decoder, its report parser and its driver.

    Python [str] values are modelled as [string]; a character is a code point
    below 256.  The builtin [float] is a parameter of the parser (its
    rounding to binary64 is not part of the model): it either returns a
    number or raises [ValueError], which is [None] here. *)

From Stdlib Require Import String Ascii List Bool Arith ZArith Lia.
From Stdlib Require Import Numbers.DecimalString.
From stdpp Require Import base option list strings gmap sorting.

Local Open Scope string_scope.
Local Open Scope Z_scope.
Local Open Scope list_scope.

(** ** Python string primitives *)

Module Py.

(** [str.isspace] on one character: the code points below 256 that
    Unicode classifies as white space. *)
Definition isspace (c : ascii) : bool :=
  let n := N_of_ascii c in
  (((9 <=? n) && (n <=? 13)) || ((28 <=? n) && (n <=? 32))
   || (n =? 133) || (n =? 160))%N.

Fixpoint lstrip (s : string) : string :=
  match s with
  | "" => ""
  | String c s' => if isspace c then lstrip s' else s
  end.

Fixpoint rstrip (s : string) : string :=
  match s with
  | "" => ""
  | String c s' =>
      match rstrip s' with
      | "" => if isspace c then "" else String c ""
      | r => String c r
      end
  end.

(** [s.strip()] *)
Definition strip (s : string) : string := rstrip (lstrip s).

(** The token being read by [split_go], most recent character first. *)
Definition flush (cur : list ascii) : list string :=
  match cur with
  | [] => []
  | _ => [string_of_list_ascii (rev cur)]
  end.

Fixpoint split_go (cur : list ascii) (s : string) : list string :=
  match s with
  | "" => flush cur
  | String c s' =>
      if isspace c then flush cur ++ split_go [] s'
      else split_go (c :: cur) s'
  end.

(** [s.split()]: the maximal runs of non-space characters. *)
Definition split (s : string) : list string := split_go [] s.

(** [s.startswith(p)] *)
Definition startswith (s p : string) : bool := String.prefix p s.

Fixpoint rfind_from (c : ascii) (s : string) (i last : Z) : Z :=
  match s with
  | "" => last
  | String a s' =>
      rfind_from c s' (i + 1) (if Ascii.eqb a c then i else last)
  end.

(** [s.rfind(c)] for a one-character [c]: the last index, or -1. *)
Definition rfind (c : ascii) (s : string) : Z := rfind_from c s 0 (-1).

Fixpoint drop (n : nat) (s : string) : string :=
  match n, s with
  | S k, String _ s' => drop k s'
  | _, _ => s
  end.

Fixpoint take (n : nat) (s : string) : string :=
  match n, s with
  | S k, String c s' => String c (take k s')
  | _, _ => ""
  end.

(** [s[i:]] and [s[:i]] for an index [0 <= i]. *)
Definition slice_from (s : string) (i : Z) : string := drop (Z.to_nat i) s.
Definition slice_to (s : string) (i : Z) : string := take (Z.to_nat i) s.

(** [posixpath.basename]: [i = p.rfind('/') + 1; return p[i:]]. *)
Definition basename (p : string) : string :=
  let i := rfind "/" p + 1 in
  slice_from p i.

(** [replace_go old new skip s]: [skip] characters of a matched occurrence
    of [old] are still to be dropped. *)
Fixpoint replace_go (old new : string) (skip : nat) (s : string) : string :=
  match s with
  | "" => ""
  | String c s' =>
      match skip with
      | S k => replace_go old new k s'
      | O =>
          if String.prefix old s
          then new +:+ replace_go old new (String.length old - 1) s'
          else String c (replace_go old new 0 s')
      end
  end.

(** [s.replace(old, new)] for a non-empty [old]: every occurrence, left to
    right, without overlap. *)
Definition replace (old new s : string) : string := replace_go old new 0 s.

(** [s.rsplit(sep, 1)] for a one-character [sep]. *)
Definition rsplit1 (sep : ascii) (s : string) : list string :=
  let j := rfind sep s in
  if j <? 0 then [s] else [slice_to s j; slice_from s (j + 1)].

Fixpoint has_char (c : ascii) (s : string) : bool :=
  match s with
  | "" => false
  | String a s' => Ascii.eqb a c || has_char c s'
  end.

(** [old in s] *)
Fixpoint occurs (old s : string) : bool :=
  String.prefix old s
  || match s with
     | "" => false
     | String _ s' => occurs old s'
     end.

(** [re.match(r'^(.+)\.([^.]+)$', s)], as its two groups.  The second group
    holds no dot and reaches the end of [s], so the literal dot is the last
    dot of [s]; the first group is what precedes it, non-empty and without
    a line feed (which [.] does not match); the second is what follows it,
    non-empty. *)
Definition match_stem_dot_tail (s : string) : option (string * string) :=
  let j := rfind "." s in
  if j <? 0 then None
  else
    let g1 := slice_to s j in
    let g2 := slice_from s (j + 1) in
    if negb (String.eqb g1 "") && negb (has_char "010" g1)
       && negb (String.eqb g2 "")
    then Some (g1, g2) else None.

(** [str(n)] for a length. *)
Definition str_of_nat (n : nat) : string :=
  NilEmpty.string_of_uint (Nat.to_uint n).

End Py.

(** ** Filename decoder *)

Definition parse_filename (filename : string) : string * string :=
  let basename := Py.basename filename in
  let name_without_ext := Py.replace ".reml" "" basename in
  match Py.rsplit1 "." name_without_ext with
  | [phenotype; type_val] => (phenotype, type_val)
  | _ =>
      match Py.match_stem_dot_tail name_without_ext with
      | Some (g1, g2) => (g1, g2)
      | None => (name_without_ext, "UNKNOWN")
      end
  end.

(** ** Report parser *)

(** The dict built by [parse_reml_file]: its five keys are fixed, so it is a
    record.  A component value is [None] or a list of optional numbers. *)
Record FileResult (F : Type) := mkFileResult {
  converged : option string;
  her_k1 : option (list (option F));
  her_k2 : option (list (option F));
  her_k3 : option (list (option F));
  her_all : option (list (option F))
}.
Arguments mkFileResult {F}.
Arguments converged {F}.
Arguments her_k1 {F}.
Arguments her_k2 {F}.
Arguments her_k3 {F}.
Arguments her_all {F}.

Section Parser.

Context {F : Type}.

(** [float(val)]: the number, or [None] for [ValueError]. *)
Variable py_float : string -> option F.

(** The first loop of [parse_reml_file]: the first line that starts with
    [Converged] decides, then [break]. *)
Fixpoint scan_converged (lines : list string) : option string :=
  match lines with
  | [] => None
  | line :: rest =>
      if Py.startswith line "Converged" then
        let parts := Py.split (Py.strip line) in
        if (2 <=? length parts)%nat then parts !! 1%nat else None
      else scan_converged rest
  end.

(** The second loop: the index of the first line that starts with
    [Component]. *)
Fixpoint scan_component (i : nat) (lines : list string) : option nat :=
  match lines with
  | [] => None
  | line :: rest =>
      if Py.startswith line "Component" then Some i
      else scan_component (S i) rest
  end.

(** One value token (lines 92 to 98). *)
Definition parse_value (val : string) : option F :=
  if String.eqb val "NA" then None else py_float val.

(** [for val in values[:5]: ...] *)
Definition parse_values (values : list string) : list (option F) :=
  map parse_value (take 5 values).

(** [while len(parsed_values) < 5: parsed_values.append(None)] *)
Definition pad5 (parsed_values : list (option F)) : list (option F) :=
  parsed_values ++ replicate (5 - length parsed_values) None.

(** The [if]/[elif] chain that stores a row under its component. *)
Definition store (component : string) (parsed_values : list (option F))
    (result : FileResult F) : FileResult F :=
  if String.eqb component "Her_K1" then
    mkFileResult (converged result) (Some parsed_values) (her_k2 result)
      (her_k3 result) (her_all result)
  else if String.eqb component "Her_K2" then
    mkFileResult (converged result) (her_k1 result) (Some parsed_values)
      (her_k3 result) (her_all result)
  else if String.eqb component "Her_K3" then
    mkFileResult (converged result) (her_k1 result) (her_k2 result)
      (Some parsed_values) (her_all result)
  else if String.eqb component "Her_All" then
    mkFileResult (converged result) (her_k1 result) (her_k2 result)
      (her_k3 result) (Some parsed_values)
  else result.

(** What the parser sees of a line: [line.strip().split()]. *)
Definition tokens (raw : string) : list string :=
  Py.split (Py.strip raw).

(** The body of the third loop, on one line after the header. *)
Definition parse_line (result : FileResult F) (raw : string)
    : FileResult F :=
  let line := Py.strip raw in
  if String.eqb line "" then result
  else
    let parts := Py.split line in
    if (length parts <? 2)%nat then result
    else
      match parts with
      | component :: values =>
          store component (pad5 (parse_values values)) result
      | [] => result
      end.

(** [parse_reml_file], applied to what [f.readlines()] returned. *)
Definition parse_reml_lines (lines : list string) : FileResult F :=
  let result :=
    mkFileResult (scan_converged lines) None None None None in
  match scan_component 0 lines with
  | None => result
  | Some component_start_idx =>
      fold_left parse_line (drop (component_start_idx + 1) lines) result
  end.

(** [result[key]] for the four component keys, by component label. *)
Definition component (lab : string) (r : FileResult F)
    : option (list (option F)) :=
  if String.eqb lab "Her_K1" then her_k1 r
  else if String.eqb lab "Her_K2" then her_k2 r
  else if String.eqb lab "Her_K3" then her_k3 r
  else if String.eqb lab "Her_All" then her_all r
  else None.

Definition recognized (lab : string) : bool :=
  String.eqb lab "Her_K1" || String.eqb lab "Her_K2"
  || String.eqb lab "Her_K3" || String.eqb lab "Her_All".

(** A line bears [lab] when the third loop reads a row for [lab] from it:
    its first token is [lab] and at least one more token follows. *)
Definition bears (lab : string) (raw : string) : bool :=
  match tokens raw with
  | component :: _ :: _ => String.eqb component lab
  | _ => false
  end.

(** The lines the third loop runs over: those after the first line that
    starts with [Component]. *)
Definition component_section (lines : list string)
    : option (list string) :=
  match scan_component 0 lines with
  | Some component_start_idx => Some (drop (component_start_idx + 1) lines)
  | None => None
  end.

End Parser.

(** [f.readlines()] on the decoded text, line feeds kept.  [cur] is the line
    being read, most recent character first. *)
Fixpoint readlines_go (cur : list ascii) (s : string) : list string :=
  match s with
  | "" => Py.flush cur
  | String c s' =>
      if Ascii.eqb c "010"
      then string_of_list_ascii (rev (c :: cur)) :: readlines_go [] s'
      else readlines_go (c :: cur) s'
  end.

Definition readlines (content : string) : list string :=
  readlines_go [] content.

Definition parse_reml_file {F : Type} (py_float : string -> option F)
    (content : string) : FileResult F :=
  parse_reml_lines py_float (readlines content).

(** *** A [float] for the examples

    Plain decimal literals [[+-]digits[.digits]], denoted by a mantissa and
    a number of decimals; every other token is refused. *)

Module Dec.

Definition digit (c : ascii) : option Z :=
  let n := Z.of_N (N_of_ascii c) in
  if (48 <=? n) && (n <=? 57) then Some (n - 48) else None.

(** Reads digits into [acc]; after the point [scale] counts decimals. *)
Fixpoint digits (seen_point : bool) (acc : Z) (scale : nat) (s : string)
    : option (Z * nat) :=
  match s with
  | "" => Some (acc, scale)
  | String c s' =>
      if Ascii.eqb c "." then
        if seen_point then None else digits true acc scale s'
      else
        match digit c with
        | Some d =>
            digits seen_point (10 * acc + d)
              (if seen_point then S scale else scale) s'
        | None => None
        end
  end.

Definition unsigned (s : string) : option (Z * nat) :=
  match s with
  | "" => None
  | String c _ =>
      match digit c with
      | Some _ => digits false 0 0 s
      | None => None
      end
  end.

Definition float (s : string) : option (Z * nat) :=
  match s with
  | String "-" s' =>
      match unsigned s' with
      | Some (m, k) => Some (- m, k)
      | None => None
      end
  | String "+" s' => unsigned s'
  | _ => unsigned s
  end.

End Dec.

(** ** Sample inputs *)

Definition sample_report : string :=
  "Num_Kinships 1
Converged YES
Component Heritability SE Size Mega_Intensity SE
Her_K1 0.5 0.1 100 1.0 0.1
Her_All 0.3 NA 50
".

(** A label with no value after it. *)
Definition bare_label_report : string :=
  "Component Heritability SE Size Mega_Intensity SE
Her_K1
".

(** The same label twice, and a token that is not a number. *)
Definition repeated_report : string :=
  "Component Heritability SE Size Mega_Intensity SE
Her_K2 0.1 0.2 0.3 0.4 0.5
Her_K1 7
Her_K2 0.9 oops NA 1.5 2 extra
Other 1 2 3
".

(** A label with two values, then the same label alone. *)
Definition label_alone_last_report : string :=
  "Component Heritability SE Size Mega_Intensity SE
Her_K1 1 2
Her_K1
".

(** A first [Converged] line without a value, then one with a value. *)
Definition converged_twice_report : string :=
  "Converged
Converged YES
".

(** ** Aggregator and renderer *)

(** The dict stored at [summary_data_dict[phenotype][type_val]]. *)
Record SummaryEntry (F : Type) := mkSummaryEntry {
  sum_converged : option string;
  sum_her_k1 : option F;
  sum_her_k2 : option F;
  sum_her_k3 : option F;
  sum_her_all : option F
}.
Arguments mkSummaryEntry {F}.
Arguments sum_converged {F}.
Arguments sum_her_k1 {F}.
Arguments sum_her_k2 {F}.
Arguments sum_her_k3 {F}.
Arguments sum_her_all {F}.

(** One dict of [detailed_data], its nine keys in insertion order. *)
Record DetailRow (F : Type) := mkDetailRow {
  d_phenotype : string;
  d_type : string;
  d_component : string;
  d_converged : option string;
  d_heritability : option F;
  d_se : option F;
  d_size : option F;
  d_mega_intensity : option F;
  d_se_2 : option F
}.
Arguments mkDetailRow {F}.
Arguments d_phenotype {F}.
Arguments d_type {F}.
Arguments d_component {F}.
Arguments d_converged {F}.
Arguments d_heritability {F}.
Arguments d_se {F}.
Arguments d_size {F}.
Arguments d_mega_intensity {F}.
Arguments d_se_2 {F}.

(** What a spreadsheet cell holds. *)
Inductive value (F : Type) :=
  | VNone
  | VStr (s : string)
  | VNum (x : F).
Arguments VNone {F}.
Arguments VStr {F}.
Arguments VNum {F}.

(** [Alignment(horizontal=..., vertical=...)] *)
Record Alignment := mkAlignment {
  horizontal : option string;
  vertical : option string
}.

Record Cell (F : Type) := mkCell {
  c_value : value F;
  c_bold : bool;
  c_alignment : option Alignment
}.
Arguments mkCell {F}.
Arguments c_value {F}.
Arguments c_bold {F}.
Arguments c_alignment {F}.

(** A worksheet: its title, its cells by (row, column), both from 1, and its
    merged ranges (start row, start column, end row, end column). *)
Record Sheet (F : Type) := mkSheet {
  title : string;
  cells : gmap (nat * nat) (Cell F);
  merged : list (nat * nat * nat * nat)
}.
Arguments mkSheet {F}.
Arguments title {F}.
Arguments cells {F}.
Arguments merged {F}.

(** What escapes [main]. *)
Inductive exn :=
  | OSError (path : string)
  | IndexError.

Inductive outcome :=
  | Returned
  | Raised (e : exn).

(** What [main] does to the outside, in order. *)
Inductive event (F : Type) :=
  | EvPrint (msg : string)
  | EvOpen (path : string)
  | EvImport
  | EvSave (path : string) (wb : list (Sheet F)).
Arguments EvPrint {F}.
Arguments EvOpen {F}.
Arguments EvImport {F}.
Arguments EvSave {F}.

(** What [main] finds outside: the expansion of a pattern, the decoded text
    of a file ([None]: opening or reading it raises), whether [openpyxl] and
    [pandas] can be imported, and whether a path can be written. *)
Record World := mkWorld {
  glob : string -> list string;
  file_text : string -> option string;
  libs_available : bool;
  writable : string -> bool
}.

(** Events so far, then an exception or a result. *)
Definition M (F A : Type) : Type := list (event F) * (exn + A).

Definition ret {F A} (x : A) : M F A := ([], inr x).
Definition raise {F A} (e : exn) : M F A := ([], inl e).
Definition emit {F} (ev : event F) : M F unit := ([ev], inr tt).
Definition bind {F A B} (m : M F A) (k : A -> M F B) : M F B :=
  match m with
  | (t, inl e) => (t, inl e)
  | (t, inr x) => let '(t', r) := k x in (t ++ t', r)
  end.

Notation "x <- m ;; k" := (bind m (fun x => k))
  (at level 100, m at level 99, right associativity).
Notation "m ;;; k" := (bind m (fun _ => k))
  (at level 100, right associativity).

Local Open Scope nat_scope.

(** [for x in xs: s = body(s, x)], stopping at the first exception. *)
Fixpoint for_each {F A St} (xs : list A) (body : St -> A -> M F St)
    (s : St) : M F St :=
  match xs with
  | [] => ret s
  | x :: xs' => s' <- body s x ;; for_each xs' body s'
  end.

(** [for i, x in enumerate(xs, start): s = body(i, x, s)] *)
Fixpoint for_enum {A St} (start : nat) (xs : list A)
    (body : nat -> A -> St -> St) (s : St) : St :=
  match xs with
  | [] => s
  | x :: xs' => for_enum (S start) xs' body (body start x s)
  end.

(** [sorted] on strings: by code point, a proper prefix first. *)
Definition sorted (l : list string) : list string :=
  merge_sort String.le l.

(** *** Worksheet operations *)

Section Worksheet.

Context {F : Type}.

Definition blank : Cell F := mkCell VNone false None.

(** [if value is not None: cell.value = value] *)
Definition put (v : value F) (cl : Cell F) : Cell F :=
  match v with
  | VNone => cl
  | _ => mkCell v (c_bold cl) (c_alignment cl)
  end.

(** [ws.cell(row=r, column=c, value=v)]: the cell is created when absent;
    a [None] value leaves what the cell holds.  A string is stored as
    given: that openpyxl refuses a string with a control character and
    cuts one of more than 32767 characters is not modelled. *)
Definition ws_cell (r c : nat) (v : value F) (ws : Sheet F) : Sheet F :=
  let cl := default blank (cells ws !! (r, c)) in
  mkSheet (title ws) (<[(r, c) := put v cl]> (cells ws)) (merged ws).

(** [cell.font = Font(bold=True)] on the cell at (r, c). *)
Definition set_bold (r c : nat) (ws : Sheet F) : Sheet F :=
  mkSheet (title ws)
    (alter (fun cl => mkCell (c_value cl) true (c_alignment cl)) (r, c)
       (cells ws))
    (merged ws).

(** [cell.alignment = a] on the cell at (r, c). *)
Definition set_alignment (r c : nat) (a : Alignment) (ws : Sheet F)
    : Sheet F :=
  mkSheet (title ws)
    (alter (fun cl => mkCell (c_value cl) (c_bold cl) (Some a)) (r, c)
       (cells ws))
    (merged ws).

(** [ws.merge_cells(...)]: the range is recorded.  The placeholder cells
    openpyxl puts at the other positions of the range are not modelled:
    [cells] holds the cells made through [ws.cell]. *)
Definition merge_cells (sr sc er ec : nat) (ws : Sheet F) : Sheet F :=
  mkSheet (title ws) (cells ws) (merged ws ++ [(sr, sc, er, ec)]).

Definition of_num (x : option F) : value F :=
  match x with Some v => VNum v | None => VNone end.

Definition of_str (x : option string) : value F :=
  match x with Some s => VStr s | None => VNone end.

End Worksheet.

(** *** A [DataFrame] built from a list of dicts

    The columns are the keys in order of first appearance; a row holds, per
    column, the value of its dict (nothing where the key is missing).  That
    pandas keeps an absent number of a numeric column as NaN is not
    modelled: the value stays absent. *)

Section DataFrame.

Context {F : Type}.

Definition add_keys (cols : list string) (keys : list string)
    : list string :=
  fold_left
    (fun cols k => if bool_decide (k ∈ cols) then cols else cols ++ [k])
    keys cols.

Definition df_columns (data : list (list (string * value F)))
    : list string :=
  fold_left (fun cols d => add_keys cols (d.*1)) data [].

Fixpoint dict_get (d : list (string * value F)) (k : string) : value F :=
  match d with
  | [] => VNone
  | (k', v) :: d' => if String.eqb k' k then v else dict_get d' k
  end.

(** [df.itertuples(index=False)] *)
Definition df_itertuples (data : list (list (string * value F)))
    : list (list (value F)) :=
  map (fun d => map (dict_get d) (df_columns data)) data.

End DataFrame.

(** *** The driver *)

(** The two accumulators of [main]. *)
Record Tables (F : Type) := mkTables {
  summary_data_dict : gmap string (gmap string (SummaryEntry F));
  detailed_data : list (DetailRow F)
}.
Arguments mkTables {F}.
Arguments summary_data_dict {F}.
Arguments detailed_data {F}.

Section Driver.

Context {F : Type}.
Variable py_float : string -> option F.

(** [data[0] if data and data[0] is not None else None] *)
Definition first_value (data : option (list (option F))) : option F :=
  match data with
  | Some (Some x :: _) => Some x
  | _ => None
  end.

Definition summary_entry (parsed : FileResult F) : SummaryEntry F :=
  mkSummaryEntry (converged parsed)
    (first_value (her_k1 parsed)) (first_value (her_k2 parsed))
    (first_value (her_k3 parsed)) (first_value (her_all parsed)).

(** Lines 152 to 161: the inner dict is created when the phenotype is
    new, then updated in place. *)
Definition summary_store (phenotype type_val : string)
    (entry : SummaryEntry F)
    (summary : gmap string (gmap string (SummaryEntry F)))
    : gmap string (gmap string (SummaryEntry F)) :=
  let summary :=
    match summary !! phenotype with
    | Some _ => summary
    | None => <[phenotype := ∅]> summary
    end in
  alter (insert type_val entry) phenotype summary.

(** [summary_data_dict[phenotype][type_val]], when both keys are there. *)
Definition summary_lookup (phenotype type_val : string)
    (summary : gmap string (gmap string (SummaryEntry F)))
    : option (SummaryEntry F) :=
  summary !! phenotype ≫= (.!! type_val).

(** [data[i]] *)
Definition index (data : list (option F)) (i : nat) : M F (option F) :=
  match data !! i with
  | Some v => ret v
  | None => raise IndexError
  end.

(** Lines 171 to 184 for one component: a row is appended when the
    component data is a non-empty list. *)
Definition detail_step (phenotype type_val : string)
    (parsed : FileResult F) (rows : list (DetailRow F))
    (c : string * option (list (option F))) : M F (list (DetailRow F)) :=
  let '(component_name, component_data) := c in
  match component_data with
  | Some (x :: l) =>
      let data := x :: l in
      v0 <- index data 0 ;;
      v1 <- index data 1 ;;
      v2 <- index data 2 ;;
      v3 <- index data 3 ;;
      v4 <- index data 4 ;;
      ret (rows ++ [mkDetailRow phenotype type_val component_name
                      (converged parsed) v0 v1 v2 v3 v4])
  | _ => ret rows
  end.

Definition components (parsed : FileResult F)
    : list (string * option (list (option F))) :=
  [("Her_K1", her_k1 parsed); ("Her_K2", her_k2 parsed);
   ("Her_K3", her_k3 parsed); ("Her_All", her_all parsed)].

(** [open(filepath, 'r')] and [f.readlines()] *)
Definition read_lines (w : World) (filepath : string)
    : M F (list string) :=
  emit (EvOpen filepath) ;;;
  match file_text w filepath with
  | Some text => ret (readlines text)
  | None => raise (OSError filepath)
  end.

(** The body of the loop over the sorted files (lines 148 to 184). *)
Definition process_file (w : World) (tables : Tables F)
    (filepath : string) : M F (Tables F) :=
  let '(phenotype, type_val) := parse_filename filepath in
  lines <- read_lines w filepath ;;
  let parsed := parse_reml_lines py_float lines in
  let summary :=
    summary_store phenotype type_val (summary_entry parsed)
      (summary_data_dict tables) in
  rows <- for_each (components parsed)
            (detail_step phenotype type_val parsed)
            (detailed_data tables) ;;
  ret (mkTables summary rows).

Definition process_files (w : World) (files : list string)
    : M F (Tables F) :=
  for_each (sorted files) (process_file w) (mkTables ∅ []).

(** Lines 196 to 199. *)
Definition all_types
    (summary : gmap string (gmap string (SummaryEntry F)))
    : list string :=
  sorted
    (elements
       (map_fold (fun _ phenotype_data (acc : gset string) =>
                    acc ∪ dom phenotype_data) ∅ summary)).

Definition col_headers : list string :=
  ["Her_K1"; "Her_K2"; "Her_K3"; "Her_All"; "Converged"].

Definition center_both : Alignment :=
  mkAlignment (Some "center") (Some "center").
Definition center_horizontal : Alignment :=
  mkAlignment (Some "center") None.

(** Lines 212 to 223; the state of the loop is [(col_idx, ws)]. *)
Definition summary_header1 (types : list string) (ws : Sheet F)
    : Sheet F :=
  let ws := ws_cell 1 1 (VStr "Phenotype") ws in
  snd (fold_left
         (fun '(col_idx, ws) type_val =>
            let ws := merge_cells 1 col_idx 1 (col_idx + 4) ws in
            let ws := ws_cell 1 col_idx (VStr type_val) ws in
            let ws := set_alignment 1 col_idx center_both ws in
            let ws := set_bold 1 col_idx ws in
            (col_idx + 5, ws))
         types (2, ws)).

(** Lines 226 to 233. *)
Definition summary_header2 (types : list string) (ws : Sheet F)
    : Sheet F :=
  let ws := set_bold 2 1 (ws_cell 2 1 (VStr "Phenotype") ws) in
  snd (fold_left
         (fun st (_ : string) =>
            fold_left
              (fun '(col_idx, ws) header =>
                 let ws := ws_cell 2 col_idx (VStr header) ws in
                 let ws := set_bold 2 col_idx ws in
                 let ws := set_alignment 2 col_idx center_horizontal ws in
                 (col_idx + 1, ws))
              col_headers st)
         types (2, ws)).

(** Lines 240 to 252 for one phenotype. *)
Definition summary_data_row (types : list string)
    (phenotype_data : gmap string (SummaryEntry F)) (row_idx : nat)
    (ws : Sheet F) : Sheet F :=
  snd (fold_left
         (fun '(col_idx, ws) type_val =>
            let ws :=
              match phenotype_data !! type_val with
              | Some data =>
                  let ws :=
                    ws_cell row_idx col_idx
                      (of_num (sum_her_k1 data)) ws in
                  let ws :=
                    ws_cell row_idx (col_idx + 1)
                      (of_num (sum_her_k2 data)) ws in
                  let ws :=
                    ws_cell row_idx (col_idx + 2)
                      (of_num (sum_her_k3 data)) ws in
                  let ws :=
                    ws_cell row_idx (col_idx + 3)
                      (of_num (sum_her_all data)) ws in
                  ws_cell row_idx (col_idx + 4)
                    (of_str (sum_converged data)) ws
              | None =>
                  fold_left
                    (fun ws i => ws_cell row_idx (col_idx + i) VNone ws)
                    (seq 0 5) ws
              end in
            (col_idx + 5, ws))
         types (2, ws)).

(** Lines 236 to 253. *)
Definition summary_rows
    (summary : gmap string (gmap string (SummaryEntry F)))
    (types : list string) (ws : Sheet F) : Sheet F :=
  for_enum 3 (sorted (elements (dom summary)))
    (fun row_idx phenotype ws =>
       let ws := ws_cell row_idx 1 (VStr phenotype) ws in
       summary_data_row types (default ∅ (summary !! phenotype))
         row_idx ws)
    ws.

Definition summary_sheet
    (summary : gmap string (gmap string (SummaryEntry F))) : Sheet F :=
  let types := all_types summary in
  let ws := mkSheet "Heritability Summary" ∅ [] in
  let ws := summary_header1 types ws in
  let ws := summary_header2 types ws in
  summary_rows summary types ws.

(** The items of one dict of [detailed_data], in insertion order. *)
Definition row_items (d : DetailRow F) : list (string * value F) :=
  [("Phenotype", VStr (d_phenotype d));
   ("Type", VStr (d_type d));
   ("Component", VStr (d_component d));
   ("Converged", of_str (d_converged d));
   ("Heritability", of_num (d_heritability d));
   ("SE", of_num (d_se d));
   ("Size", of_num (d_size d));
   ("Mega_Intensity", of_num (d_mega_intensity d));
   ("SE_2", of_num (d_se_2 d))].

(** Lines 256 to 267. *)
Definition detailed_sheet (detailed : list (DetailRow F)) : Sheet F :=
  let ws := mkSheet "Detailed Information" ∅ [] in
  let df := map row_items detailed in
  let ws :=
    for_enum 1 (df_columns df)
      (fun c_idx col_name ws =>
         set_bold 1 c_idx (ws_cell 1 c_idx (VStr col_name) ws))
      ws in
  for_enum 2 (df_itertuples df)
    (fun r_idx row ws =>
       for_enum 1 row (fun c_idx v ws => ws_cell r_idx c_idx v ws) ws)
    ws.

(** [wb.save(path)] *)
Definition save (w : World) (path : string) (wb : list (Sheet F))
    : M F unit :=
  if writable w path then emit (EvSave path wb) else raise (OSError path).

Definition main_body (w : World) (pattern output : string) : M F unit :=
  let reml_files := glob w pattern in
  match reml_files with
  | [] =>
      emit (EvPrint ("Warning: No files found matching pattern '"
                   +:+ pattern +:+ "'"))
  | _ =>
      emit (EvPrint ("Found " +:+ Py.str_of_nat (length reml_files)
                   +:+ " .reml files")) ;;;
      tables <- process_files w reml_files ;;
      emit EvImport ;;;
      if libs_available w then
        let wb := [summary_sheet (summary_data_dict tables);
                   detailed_sheet (detailed_data tables)] in
        save w output wb ;;;
        emit (EvPrint ("Successfully wrote results to " +:+ output)) ;;;
        emit (EvPrint ("  - Summary sheet: "
                     +:+ Py.str_of_nat (size (summary_data_dict tables))
                     +:+ " rows (with merged headers)")) ;;;
        emit (EvPrint ("  - Detailed sheet: "
                     +:+ Py.str_of_nat (length (detailed_data tables))
                     +:+ " rows"))
      else
        emit (EvPrint "Error: openpyxl and pandas are required. Please install them with: pip install pandas openpyxl")
  end.

(** A run of [main]: what it did, and how it ended. *)
Definition main (w : World) (pattern output : string)
    : list (event F) * outcome :=
  match main_body w pattern output with
  | (t, inl e) => (t, Raised e)
  | (t, inr _) => (t, Returned)
  end.

End Driver.

(** ** Notions used in the statements *)

(** Every stored component has five entries. *)
Definition rows_of_five {F : Type} (r : FileResult F) : Prop :=
  forall lab row, component lab r = Some row -> length row = 5.

(** The detail rows one file contributes, in the fixed component order. *)
Definition new_rows {F : Type} (phenotype type_val : string)
    (parsed : FileResult F) : list (DetailRow F) :=
  flat_map
    (fun c : string * option (list (option F)) =>
       match c.2 with
       | Some [v0; v1; v2; v3; v4] =>
           [mkDetailRow phenotype type_val c.1 (converged parsed)
              v0 v1 v2 v3 v4]
       | _ => []
       end)
    (components parsed).

(** What one readable file does to the two tables. *)
Definition absorb {F : Type} (py_float : string -> option F) (w : World)
    (tables : Tables F) (filepath : string) : Tables F :=
  let parsed :=
    parse_reml_file py_float (default "" (file_text w filepath)) in
  mkTables
    (summary_store (parse_filename filepath).1 (parse_filename filepath).2
       (summary_entry parsed) (summary_data_dict tables))
    (detailed_data tables
     ++ new_rows (parse_filename filepath).1 (parse_filename filepath).2
          parsed).

(** The nine column names of the detailed sheet. *)
Definition detail_columns : list string :=
  ["Phenotype"; "Type"; "Component"; "Converged"; "Heritability"; "SE";
   "Size"; "Mega_Intensity"; "SE_2"].

Definition is_save {F : Type} (ev : event F) : bool :=
  match ev with EvSave _ _ => true | _ => false end.

Definition is_open {F : Type} (ev : event F) : bool :=
  match ev with EvOpen _ => true | _ => false end.

(** The imports are tried before any file is opened. *)
Definition imports_first {F : Type} (t : list (event F)) : Prop :=
  exists t1 t2, t = t1 ++ EvImport :: t2 /\ existsb is_open t1 = false.

(** ** Sample worlds *)

(** The files of a directory listing, by path. *)
Fixpoint text_of (files : list (string * string)) (path : string)
    : option string :=
  match files with
  | [] => None
  | (p, text) :: rest =>
      if String.eqb p path then Some text else text_of rest path
  end.

(** A world where every pattern expands to the paths of [files]. *)
Definition world_of (files : list (string * string)) (libs : bool)
    : World :=
  mkWorld (fun _ => files.*1) (text_of files) libs (fun _ => true).

Definition world_empty : World := world_of [] true.

Definition world_no_libs : World :=
  world_of [("d/A.X.reml", sample_report)] false.

(** Two files that decode to the pair (A, X). *)
Definition world_clash : World :=
  world_of [("b/A.X.reml", repeated_report); ("a/A.X.reml", sample_report)]
    true.

(** One file, without any recognized component. *)
Definition world_no_component : World :=
  world_of [("d/A.X.reml", converged_twice_report)] true.

(** The two files of the end-to-end scenario. *)
Definition world_scenario : World :=
  world_of
    [("d/A.Y.reml", "Converged NO
Component Heritability SE Size Mega_Intensity SE
Her_All 0.3 NA 50 0.9 0.05
");
     ("d/A.X.reml", "Converged YES
Component Heritability SE Size Mega_Intensity SE
Her_K1 0.5 0.1 100 1.0 0.1
")]
    true.

(** A component line before the header. *)
Definition early_report : string :=
  "Her_K1 9 9 9 9 9
Component Heritability SE Size Mega_Intensity SE
Her_K2 1 2 3 4 5
".

(** The pattern lists two paths; the second one cannot be read. *)
Definition world_missing : World :=
  mkWorld (fun _ => ["d/B.X.reml"; "d/A.X.reml"])
    (text_of [("d/A.X.reml", sample_report)]) true (fun _ => true).

(** The output path cannot be written. *)
Definition world_read_only : World :=
  mkWorld (fun _ => ["d/A.X.reml"])
    (text_of [("d/A.X.reml", sample_report)]) true (fun _ => false).

(** ** The loops of the summary sheet, from any column

    The bodies of the three column loops of [summary_sheet], named so that
    they can be run from any column and sheet. *)

Definition header1_step {F : Type}
    : nat * Sheet F -> string -> nat * Sheet F :=
  fun '(col_idx, ws) type_val =>
    let ws := merge_cells 1 col_idx 1 (col_idx + 4) ws in
    let ws := ws_cell 1 col_idx (VStr type_val) ws in
    let ws := set_alignment 1 col_idx center_both ws in
    let ws := set_bold 1 col_idx ws in
    (col_idx + 5, ws).

Definition header2_step {F : Type} (st : nat * Sheet F) (_ : string)
    : nat * Sheet F :=
  fold_left
    (fun '(col_idx, ws) header =>
       let ws := ws_cell 2 col_idx (VStr header) ws in
       let ws := set_bold 2 col_idx ws in
       let ws := set_alignment 2 col_idx center_horizontal ws in
       (col_idx + 1, ws))
    col_headers st.

Definition data_step {F : Type}
    (phenotype_data : gmap string (SummaryEntry F)) (row_idx : nat)
    : nat * Sheet F -> string -> nat * Sheet F :=
  fun '(col_idx, ws) type_val =>
    let ws :=
      match phenotype_data !! type_val with
      | Some data =>
          let ws :=
            ws_cell row_idx col_idx (of_num (sum_her_k1 data)) ws in
          let ws :=
            ws_cell row_idx (col_idx + 1) (of_num (sum_her_k2 data)) ws in
          let ws :=
            ws_cell row_idx (col_idx + 2) (of_num (sum_her_k3 data)) ws in
          let ws :=
            ws_cell row_idx (col_idx + 3) (of_num (sum_her_all data)) ws in
          ws_cell row_idx (col_idx + 4) (of_str (sum_converged data)) ws
      | None =>
          fold_left (fun ws i => ws_cell row_idx (col_idx + i) VNone ws)
            (seq 0 5) ws
      end in
    (col_idx + 5, ws).


(** The tables of the end-to-end scenario. *)
Definition scenario_result : Tables (Z * nat) :=
  fold_left (absorb Dec.float world_scenario)
    (sorted (glob world_scenario "d/*.reml")) (mkTables ∅ []).

(** The four component labels, in the order of the detail rows. *)
Definition component_labels : list string :=
  ["Her_K1"; "Her_K2"; "Her_K3"; "Her_All"].

(** The value a summary entry holds for a component, by label. *)
Definition summary_value {F : Type} (lab : string) (e : SummaryEntry F)
    : option F :=
  if String.eqb lab "Her_K1" then sum_her_k1 e
  else if String.eqb lab "Her_K2" then sum_her_k2 e
  else if String.eqb lab "Her_K3" then sum_her_k3 e
  else if String.eqb lab "Her_All" then sum_her_all e
  else None.

(** * Properties *)

(** ** Filename decoder *)

Section FilenameFacts.

Local Open Scope Z_scope.

Lemma str_append_nil (s : string) : "" +:+ s = s.
Proof. reflexivity. Qed.

Lemma str_append_cons c (s1 s2 : string) :
  String c s1 +:+ s2 = String c (s1 +:+ s2).
Proof. reflexivity. Qed.

Lemma str_append_assoc (s1 s2 s3 : string) :
  (s1 +:+ s2) +:+ s3 = s1 +:+ s2 +:+ s3.
Proof.
  induction s1 as [|c s1 IH]; [reflexivity|].
  rewrite !str_append_cons. now rewrite IH.
Qed.

Lemma str_length_append (s1 s2 : string) :
  String.length (s1 +:+ s2) = (String.length s1 + String.length s2)%nat.
Proof.
  induction s1 as [|c s1 IH]; [reflexivity|].
  rewrite str_append_cons. cbn [String.length]. now rewrite IH.
Qed.

Lemma has_char_app c (s1 s2 : string) :
  Py.has_char c (s1 +:+ s2) = Py.has_char c s1 || Py.has_char c s2.
Proof.
  induction s1 as [|a s1 IH]; [reflexivity|].
  rewrite str_append_cons. cbn [Py.has_char]. now rewrite IH, orb_assoc.
Qed.

Lemma rfind_from_absent c (s : string) i last :
  Py.has_char c s = false -> Py.rfind_from c s i last = last.
Proof.
  revert i last. induction s as [|a s IH]; intros i last H;
    [reflexivity|].
  cbn [Py.has_char Py.rfind_from] in *.
  apply orb_false_iff in H as [Ha Hs]. rewrite Ha. now apply IH.
Qed.

Lemma rfind_from_last c (s1 s2 : string) i last :
  Py.has_char c s2 = false ->
  Py.rfind_from c (s1 +:+ String c s2) i last
  = i + Z.of_nat (String.length s1).
Proof.
  intros H. revert i last.
  induction s1 as [|a s1 IH]; intros i last.
  - rewrite str_append_nil. cbn [Py.rfind_from String.length].
    rewrite Ascii.eqb_refl, rfind_from_absent by exact H. lia.
  - rewrite str_append_cons. cbn [Py.rfind_from String.length].
    rewrite IH. lia.
Qed.

Lemma str_drop_app (s1 s2 : string) :
  Py.drop (String.length s1) (s1 +:+ s2) = s2.
Proof. induction s1 as [|a s1 IH]; [now destruct s2 | exact IH]. Qed.

Lemma str_take_app (s1 s2 : string) :
  Py.take (String.length s1) (s1 +:+ s2) = s1.
Proof.
  induction s1 as [|a s1 IH]; [now destruct s2|].
  rewrite str_append_cons. cbn [String.length Py.take]. now rewrite IH.
Qed.

(** The base name of a path that ends in a name without slash. *)
Lemma basename_dir (dir name : string) :
  dir = "" \/ (exists d, dir = d +:+ "/") ->
  Py.has_char "/" name = false ->
  Py.basename (dir +:+ name) = name.
Proof.
  intros [-> | [d ->]] H; unfold Py.basename, Py.rfind, Py.slice_from.
  - rewrite str_append_nil, rfind_from_absent by exact H. reflexivity.
  - rewrite str_append_assoc, str_append_cons, str_append_nil.
    rewrite rfind_from_last by exact H.
    replace (Z.to_nat (0 + Z.of_nat (String.length d) + 1))
      with (String.length (d +:+ "/")).
    + change (String "/" name) with ("/" +:+ name).
      rewrite <- (str_append_assoc d "/" name). apply str_drop_app.
    + rewrite str_length_append. cbn [String.length]. lia.
Qed.

(** An occurrence of [.reml] cannot start inside [s] and end in an
    extension appended to [s]. *)
Lemma prefix_ext_straddle (c : ascii) (s : string) :
  String.prefix ".reml" (String c s) = false ->
  String.prefix ".reml" (String c s +:+ ".reml") = false.
Proof.
  destruct s as [|c2 [|c3 [|c4 [|c5 s]]]];
    rewrite ?str_append_cons, ?str_append_nil; cbn [String.prefix];
    repeat match goal with
           | |- context [ascii_dec ?a ?b] =>
               destruct (ascii_dec a b); try subst
           end; try reflexivity; try congruence.
  destruct s; discriminate.
Qed.

Lemma replace_ext (s : string) :
  Py.occurs ".reml" s = false ->
  Py.replace ".reml" "" (s +:+ ".reml") = s.
Proof.
  unfold Py.replace. induction s as [|c s IH]; intros H.
  - reflexivity.
  - cbn [Py.occurs] in H. apply orb_false_iff in H as [Hp Ho].
    pose proof (prefix_ext_straddle c s Hp) as Hq.
    rewrite str_append_cons in *. cbn [Py.replace_go]. rewrite Hq.
    now rewrite IH.
Qed.

Lemma rsplit1_last sep (s1 s2 : string) :
  Py.has_char sep s2 = false ->
  Py.rsplit1 sep (s1 +:+ String sep s2) = [s1; s2].
Proof.
  intros H. unfold Py.rsplit1, Py.rfind, Py.slice_to, Py.slice_from.
  rewrite rfind_from_last by exact H.
  destruct (Z.ltb_spec (0 + Z.of_nat (String.length s1)) 0); [lia|].
  replace (Z.to_nat (0 + Z.of_nat (String.length s1)))
    with (String.length s1) by lia.
  replace (Z.to_nat (0 + Z.of_nat (String.length s1) + 1))
    with (String.length (s1 +:+ String sep "")).
  - rewrite str_take_app.
    change (String sep s2) with (String sep "" +:+ s2) at 1.
    rewrite <- str_append_assoc. now rewrite str_drop_app.
  - rewrite str_length_append. cbn [String.length]. lia.
Qed.

(** The decoder on the names it is written for: a base name [P.Q.reml]
    where [Q] holds no dot and [.reml] occurs nowhere in [P.Q]. *)
Lemma parse_filename_plain (dir P Q : string) :
  dir = "" \/ (exists d, dir = d +:+ "/") ->
  Py.has_char "/" P = false ->
  Py.has_char "/" Q = false ->
  Py.has_char "." Q = false ->
  Py.occurs ".reml" (P +:+ "." +:+ Q) = false ->
  parse_filename (dir +:+ P +:+ "." +:+ Q +:+ ".reml") = (P, Q).
Proof.
  intros Hdir HP HQ Hdot Hocc. unfold parse_filename.
  rewrite basename_dir; [|exact Hdir|].
  - rewrite <- (str_append_assoc "." Q ".reml"), <- str_append_assoc.
    rewrite replace_ext by exact Hocc.
    change ("." +:+ Q) with (String "." Q).
    now rewrite rsplit1_last.
  - rewrite !has_char_app, HP, HQ. reflexivity.
Qed.

(** Without any dot in the stripped name the pattern of the fallback
    cannot match, and the category is [UNKNOWN]. *)
Lemma parse_filename_no_dot (dir name : string) :
  dir = "" \/ (exists d, dir = d +:+ "/") ->
  Py.has_char "/" name = false ->
  Py.has_char "." name = false ->
  parse_filename (dir +:+ name +:+ ".reml") = (name, "UNKNOWN").
Proof.
  intros Hdir Hs Hdot. unfold parse_filename.
  rewrite basename_dir; [|exact Hdir|].
  - assert (Hocc : Py.occurs ".reml" name = false).
    { clear Hs. induction name as [|c s IH]; [reflexivity|].
      cbn [Py.has_char] in Hdot.
      apply orb_false_iff in Hdot as [Hc Hd].
      cbn [Py.occurs String.prefix]. rewrite (IH Hd).
      destruct (ascii_dec "." c) as [<-|]; [discriminate | reflexivity]. }
    rewrite replace_ext by exact Hocc.
    unfold Py.rsplit1, Py.match_stem_dot_tail, Py.rfind.
    rewrite rfind_from_absent by exact Hdot. reflexivity.
  - rewrite has_char_app, Hs. reflexivity.
Qed.

End FilenameFacts.

(** ** Report parser *)

Section ParserFacts.

Context {F : Type}.
Variable py_float : string -> option F.

Implicit Types (r : FileResult F) (lab raw : string).

Lemma parse_line_tokens r raw :
  parse_line py_float r raw =
  match tokens raw with
  | lab :: v :: vs => store lab (pad5 (parse_values py_float (v :: vs))) r
  | _ => r
  end.
Proof.
  unfold parse_line, tokens.
  destruct (String.eqb (Py.strip raw) "") eqn:E.
  - apply String.eqb_eq in E. rewrite E. reflexivity.
  - destruct (Py.split (Py.strip raw)) as [|lab [|v vs]]; reflexivity.
Qed.

(** A label without any value after it changes nothing. *)
Lemma parse_line_label_only r raw lab :
  tokens raw = [lab] -> parse_line py_float r raw = r.
Proof. intros H. now rewrite parse_line_tokens, H. Qed.

Lemma length_pad5 (l : list (option F)) :
  length l <= 5 -> length (pad5 l) = 5.
Proof.
  intros H. unfold pad5. rewrite length_app, length_replicate. lia.
Qed.

Lemma length_parse_values (values : list string) :
  length (parse_values py_float values) = Nat.min 5 (length values).
Proof. unfold parse_values. now rewrite length_map, length_take. Qed.

Lemma length_row (values : list string) :
  length (pad5 (parse_values py_float values)) = 5.
Proof. apply length_pad5. rewrite length_parse_values. lia. Qed.

Lemma component_store lab lab' row r :
  component lab (store lab' row r) =
  if recognized lab && String.eqb lab' lab then Some row
  else component lab r.
Proof.
  unfold component, store, recognized.
  destruct (String.eqb lab' lab) eqn:E.
  - apply String.eqb_eq in E. subst lab'.
    destruct (String.eqb lab "Her_K1") eqn:E1; [reflexivity|].
    destruct (String.eqb lab "Her_K2") eqn:E2; [reflexivity|].
    destruct (String.eqb lab "Her_K3") eqn:E3; [reflexivity|].
    destruct (String.eqb lab "Her_All") eqn:E4; reflexivity.
  - rewrite andb_false_r.
    destruct (String.eqb lab' "Her_K1") eqn:L1.
    { apply String.eqb_eq in L1. subst lab'.
      rewrite String.eqb_sym in E. rewrite E. reflexivity. }
    destruct (String.eqb lab' "Her_K2") eqn:L2.
    { apply String.eqb_eq in L2. subst lab'.
      rewrite String.eqb_sym in E. rewrite E.
      destruct (String.eqb lab "Her_K1"); reflexivity. }
    destruct (String.eqb lab' "Her_K3") eqn:L3.
    { apply String.eqb_eq in L3. subst lab'.
      rewrite String.eqb_sym in E. rewrite E.
      destruct (String.eqb lab "Her_K1"), (String.eqb lab "Her_K2");
        reflexivity. }
    destruct (String.eqb lab' "Her_All") eqn:L4; [|reflexivity].
    apply String.eqb_eq in L4. subst lab'.
    rewrite String.eqb_sym in E. rewrite E.
    destruct (String.eqb lab "Her_K1"), (String.eqb lab "Her_K2"),
      (String.eqb lab "Her_K3"); reflexivity.
Qed.

Lemma converged_store lab row r :
  converged (store lab row r) = converged r.
Proof.
  unfold store.
  repeat match goal with
         | |- context [if ?b then _ else _] => destruct b
         end; reflexivity.
Qed.

Lemma component_parse_line lab r raw :
  component lab (parse_line py_float r raw) =
  if recognized lab && bears lab raw
  then Some (pad5 (parse_values py_float (List.tl (tokens raw))))
  else component lab r.
Proof.
  rewrite parse_line_tokens. unfold bears.
  destruct (tokens raw) as [|lab' [|v vs]].
  - now rewrite andb_false_r.
  - now rewrite andb_false_r.
  - rewrite component_store. reflexivity.
Qed.

Lemma rows_of_five_parse_line r raw :
  rows_of_five r -> rows_of_five (parse_line py_float r raw).
Proof.
  intros H lab row. rewrite component_parse_line.
  destruct (recognized lab && bears lab raw).
  - intros [= <-]. apply length_row.
  - apply H.
Qed.

Lemma rows_of_five_fold (ls : list string) r :
  rows_of_five r -> rows_of_five (fold_left (parse_line py_float) ls r).
Proof.
  revert r. induction ls as [|l ls IH]; intros r H; simpl; [exact H|].
  apply IH, rows_of_five_parse_line, H.
Qed.

Lemma component_fresh lab (c : option string) :
  component lab (mkFileResult (F := F) c None None None None) = None.
Proof.
  unfold component. simpl.
  repeat match goal with
         | |- context [if ?b then _ else _] => destruct b
         end; reflexivity.
Qed.

Lemma parse_reml_lines_section (lines : list string) :
  parse_reml_lines py_float lines =
  let result := mkFileResult (scan_converged lines) None None None None in
  match component_section lines with
  | Some section => fold_left (parse_line py_float) section result
  | None => result
  end.
Proof.
  unfold parse_reml_lines, component_section.
  destruct (scan_component 0 lines); reflexivity.
Qed.

Lemma rows_of_five_parse (lines : list string) :
  rows_of_five (parse_reml_lines py_float lines).
Proof.
  rewrite parse_reml_lines_section. simpl.
  assert (H0 : rows_of_five (F := F)
            (mkFileResult (scan_converged lines) None None None None)).
  { intros lab row. rewrite component_fresh. discriminate. }
  destruct (component_section lines); [|exact H0].
  apply rows_of_five_fold, H0.
Qed.

(** The row of the last line that bears [lab] is the one kept. *)
Lemma component_fold_last lab (mid post : list string) raw r :
  recognized lab = true ->
  bears lab raw = true ->
  Forall (fun l => bears lab l = false) post ->
  component lab (fold_left (parse_line py_float) (mid ++ raw :: post) r) =
  Some (pad5 (parse_values py_float (List.tl (tokens raw)))).
Proof.
  intros Hrec Hraw Hpost.
  rewrite fold_left_app. simpl.
  set (r1 := parse_line py_float (fold_left _ mid r) raw).
  assert (H1 : component lab r1 =
               Some (pad5 (parse_values py_float (List.tl (tokens raw))))).
  { unfold r1. rewrite component_parse_line, Hrec, Hraw. reflexivity. }
  clearbody r1. revert r1 H1.
  induction Hpost as [|l post Hl _ IH]; intros r1 H1; simpl; [exact H1|].
  apply IH. rewrite component_parse_line, Hl, andb_false_r. exact H1.
Qed.

Lemma converged_fold (ls : list string) r :
  converged (fold_left (parse_line py_float) ls r) = converged r.
Proof.
  revert r. induction ls as [|l ls IH]; intros r; simpl; [reflexivity|].
  rewrite IH, parse_line_tokens.
  destruct (tokens l) as [|lab [|v vs]]; try reflexivity.
  apply converged_store.
Qed.

Lemma converged_parse (lines : list string) :
  converged (parse_reml_lines py_float lines) = scan_converged lines.
Proof.
  rewrite parse_reml_lines_section. simpl.
  destruct (component_section lines); [|reflexivity].
  apply converged_fold.
Qed.

End ParserFacts.

Section ScanFacts.

Lemma scan_component_app (pre rest : list string) header i :
  Forall (fun l => Py.startswith l "Component" = false) pre ->
  Py.startswith header "Component" = true ->
  scan_component i (pre ++ header :: rest) = Some (i + length pre).
Proof.
  intros Hpre Hh. revert i.
  induction Hpre as [|l pre Hl _ IH]; intros i; simpl.
  - rewrite Hh. f_equal. lia.
  - rewrite Hl, IH. f_equal. lia.
Qed.

(** The section starts right after the first header line. *)
Lemma component_section_after_header (pre rest : list string) header :
  Forall (fun l => Py.startswith l "Component" = false) pre ->
  Py.startswith header "Component" = true ->
  component_section (pre ++ header :: rest) = Some rest.
Proof.
  intros Hpre Hh. unfold component_section.
  rewrite (scan_component_app pre rest header 0 Hpre Hh). f_equal.
  replace (0 + length pre + 1) with (length (pre ++ [header]))
    by (rewrite length_app; simpl; lia).
  rewrite (cons_middle header pre rest), app_assoc.
  apply drop_app_length.
Qed.

Lemma component_section_none (lines : list string) :
  Forall (fun l => Py.startswith l "Component" = false) lines ->
  component_section lines = None.
Proof.
  intros H. unfold component_section.
  enough (E : forall i, scan_component i lines = None) by now rewrite E.
  induction H as [|l ls Hl _ IH]; intros i; simpl; [reflexivity|].
  now rewrite Hl.
Qed.

Lemma scan_converged_app (pre post : list string) l :
  Forall (fun x => Py.startswith x "Converged" = false) pre ->
  Py.startswith l "Converged" = true ->
  scan_converged (pre ++ l :: post) =
  if 2 <=? length (tokens l) then tokens l !! 1 else None.
Proof.
  intros Hpre Hl.
  induction Hpre as [|x pre Hx _ IH]; simpl.
  - rewrite Hl. reflexivity.
  - rewrite Hx. exact IH.
Qed.

End ScanFacts.

(** *** Claims on the parser *)

Section ParserClaims.

Context {F : Type}.
Variable py_float : string -> option F.

(** C8. Every component row that [parse_reml_file] stores has exactly
    five entries, whatever the content of the file. *)
Theorem C8_row_has_five_entries (content lab : string)
    (row : list (option F)) :
  component lab (parse_reml_file py_float content) = Some row ->
  length row = 5.
Proof. apply rows_of_five_parse. Qed.

(** C2, amended. In the component section, a line whose first token is
    one of the four labels, followed by at least one and fewer than five
    value tokens, gives a row whose first entries are the parsed values
    and whose remaining entries are absent; the row is the one kept for
    the label when no later line bears the label. *)
Theorem C2_short_line_padded (lines mid post : list string)
    (raw lab : string) (vals : list string) :
  component_section lines = Some (mid ++ raw :: post) ->
  tokens raw = lab :: vals ->
  recognized lab = true ->
  1 <= length vals < 5 ->
  Forall (fun l => bears lab l = false) post ->
  component lab (parse_reml_lines py_float lines) =
  Some (map (parse_value py_float) vals
        ++ replicate (5 - length vals) None).
Proof.
  intros Hsec Htok Hrec Hlen Hpost.
  rewrite parse_reml_lines_section, Hsec. simpl.
  assert (Hb : bears lab raw = true).
  { unfold bears. rewrite Htok. destruct vals; simpl in *; [lia|].
    apply String.eqb_refl. }
  rewrite (component_fold_last py_float lab mid post raw _ Hrec Hb Hpost).
  rewrite Htok. simpl. unfold pad5, parse_values.
  rewrite take_ge by lia. now rewrite length_map.
Qed.

(** C6. In a component line, each of the first five value tokens is read
    on its own: [NA] gives an absent entry, another token that [float]
    accepts gives that number, and a token that [float] refuses gives an
    absent entry; the row is stored all the same. *)
Theorem C6_value_tokens (lines mid post : list string)
    (raw lab : string) (vals : list string) :
  component_section lines = Some (mid ++ raw :: post) ->
  tokens raw = lab :: vals ->
  vals <> [] ->
  recognized lab = true ->
  Forall (fun l => bears lab l = false) post ->
  exists row,
    component lab (parse_reml_lines py_float lines) = Some row /\
    length row = 5 /\
    forall i tok, i < 5 -> vals !! i = Some tok ->
      (tok = "NA" -> row !! i = Some None) /\
      (forall x, tok <> "NA" -> py_float tok = Some x ->
                 row !! i = Some (Some x)) /\
      (tok <> "NA" -> py_float tok = None -> row !! i = Some None).
Proof.
  intros Hsec Htok Hne Hrec Hpost.
  assert (Hb : bears lab raw = true).
  { unfold bears. rewrite Htok. destruct vals; [congruence|].
    apply String.eqb_refl. }
  exists (pad5 (parse_values py_float vals)).
  split; [|split].
  - rewrite parse_reml_lines_section, Hsec. simpl.
    rewrite (component_fold_last py_float lab mid post raw _ Hrec Hb Hpost).
    now rewrite Htok.
  - apply length_row.
  - intros i tok Hi Hv.
    assert (E : pad5 (parse_values py_float vals) !! i
                = Some (parse_value py_float tok)).
    { unfold pad5, parse_values. apply lookup_app_l_Some.
      rewrite list_lookup_fmap, lookup_take_lt by exact Hi.
      now rewrite Hv. }
    rewrite E. unfold parse_value. repeat split.
    + intros ->. reflexivity.
    + intros x Hna Hx. apply String.eqb_neq in Hna. now rewrite Hna, Hx.
    + intros Hna Hx. apply String.eqb_neq in Hna. now rewrite Hna, Hx.
Qed.

(** C9, amended. When two lines of the component section bear the same
    recognized label, each followed by at least one value token, and no
    line after the second one does, the row kept for the label is the
    one read from the second line; lines that hold the label alone,
    wherever they stand, do not count. *)
Theorem C9_later_line_overwrites (lines s1 s2 s3 : list string)
    (l1 l2 lab : string) :
  component_section lines = Some (s1 ++ l1 :: s2 ++ l2 :: s3) ->
  recognized lab = true ->
  bears lab l1 = true ->
  bears lab l2 = true ->
  Forall (fun l => bears lab l = false) s3 ->
  component lab (parse_reml_lines py_float lines) =
  Some (pad5 (parse_values py_float (List.tl (tokens l2)))).
Proof.
  intros Hsec Hrec _ Hb2 Hpost.
  rewrite parse_reml_lines_section, Hsec. simpl.
  rewrite (cons_middle l1 s1), app_assoc, app_assoc.
  rewrite <- (app_assoc s1 [l1] s2).
  apply component_fold_last; assumption.
Qed.

(** C10. The first line that starts with [Converged] is the only one
    consulted: the convergence value is its second token when it has
    one, and is absent when that line has fewer than two tokens,
    whatever the lines after it. *)
Theorem C10_first_converged_line_only (pre post : list string)
    (l : string) :
  Forall (fun x => Py.startswith x "Converged" = false) pre ->
  Py.startswith l "Converged" = true ->
  converged (parse_reml_lines py_float (pre ++ l :: post))
  = (if 2 <=? length (tokens l) then tokens l !! 1 else None)
  /\ (length (tokens l) < 2 ->
      converged (parse_reml_lines py_float (pre ++ l :: post)) = None).
Proof.
  intros Hpre Hl.
  rewrite converged_parse, (scan_converged_app pre post l Hpre Hl).
  split; [reflexivity|]. intros Hlen.
  destruct (Nat.leb_spec 2 (length (tokens l))); [lia | reflexivity].
Qed.

End ParserClaims.

Lemma C8_witness :
  component "Her_All" (parse_reml_file Dec.float sample_report)
  = Some [Some (3%Z, 1); None; Some (50%Z, 0); None; None]
  /\ length [Some (3%Z, 1); None; Some (50%Z, 0); None; None] = 5.
Proof.
  assert (H : component "Her_All" (parse_reml_file Dec.float sample_report)
              = Some [Some (3%Z, 1); None; Some (50%Z, 0); None; None])
    by (vm_compute; reflexivity).
  split; [exact H|].
  exact (C8_row_has_five_entries Dec.float sample_report "Her_All" _ H).
Defined.

(** C2 as stated fails: a label with no value after it gives no row. *)
Lemma C2_counterexample :
  tokens "Her_K1
" = ["Her_K1"] /\
  component_section (readlines bare_label_report) = Some ["Her_K1
"] /\
  component "Her_K1" (parse_reml_file Dec.float bare_label_report)
  <> Some (map (parse_value Dec.float) [] ++ replicate (5 - 0) None).
Proof. repeat split. vm_compute. discriminate. Qed.

Lemma C2_witness :
  component "Her_All" (parse_reml_lines Dec.float (readlines sample_report))
  = Some [Some (3%Z, 1); None; Some (50%Z, 0); None; None].
Proof.
  apply (C2_short_line_padded Dec.float (readlines sample_report)
           ["Her_K1 0.5 0.1 100 1.0 0.1
"] [] "Her_All 0.3 NA 50
" "Her_All" ["0.3"; "NA"; "50"]).
  - vm_compute. reflexivity.
  - vm_compute. reflexivity.
  - reflexivity.
  - simpl. lia.
  - constructor.
Defined.

Lemma C6_witness :
  exists row,
    component "Her_K2"
      (parse_reml_lines Dec.float (readlines repeated_report)) = Some row /\
    length row = 5 /\
    forall i tok, i < 5 ->
      ["0.9"; "oops"; "NA"; "1.5"; "2"; "extra"] !! i = Some tok ->
      (tok = "NA" -> row !! i = Some None) /\
      (forall x, tok <> "NA" -> Dec.float tok = Some x ->
                 row !! i = Some (Some x)) /\
      (tok <> "NA" -> Dec.float tok = None -> row !! i = Some None).
Proof.
  apply (C6_value_tokens Dec.float (readlines repeated_report)
           ["Her_K2 0.1 0.2 0.3 0.4 0.5
"; "Her_K1 7
"] ["Other 1 2 3
"] "Her_K2 0.9 oops NA 1.5 2 extra
" "Her_K2").
  - vm_compute. reflexivity.
  - vm_compute. reflexivity.
  - discriminate.
  - reflexivity.
  - repeat constructor.
Defined.

(** C9 as stated fails: the last line with the label holds the label
    alone; the row kept is the one of the line before it, not a row read
    from the last line. *)
Lemma C9_counterexample :
  component_section (readlines label_alone_last_report)
  = Some ["Her_K1 1 2
"; "Her_K1
"] /\
  tokens "Her_K1 1 2
" = ["Her_K1"; "1"; "2"] /\
  tokens "Her_K1
" = ["Her_K1"] /\
  component "Her_K1" (parse_reml_file Dec.float label_alone_last_report)
  = Some [Some (1%Z, 0); Some (2%Z, 0); None; None; None] /\
  component "Her_K1" (parse_reml_file Dec.float label_alone_last_report)
  <> Some (pad5 (parse_values Dec.float (List.tl (tokens "Her_K1
")))).
Proof. repeat split. vm_compute. discriminate. Qed.

Lemma C9_witness :
  component "Her_K2"
    (parse_reml_lines Dec.float (readlines repeated_report))
  = Some [Some (9%Z, 1); None; None; Some (15%Z, 1); Some (2%Z, 0)].
Proof.
  apply (C9_later_line_overwrites Dec.float (readlines repeated_report)
           [] ["Her_K1 7
"] ["Other 1 2 3
"] "Her_K2 0.1 0.2 0.3 0.4 0.5
" "Her_K2 0.9 oops NA 1.5 2 extra
" "Her_K2").
  - vm_compute. reflexivity.
  - reflexivity.
  - vm_compute. reflexivity.
  - vm_compute. reflexivity.
  - repeat constructor.
Defined.

Lemma C10_witness :
  converged
    (parse_reml_lines Dec.float (readlines converged_twice_report))
  = None.
Proof.
  apply (C10_first_converged_line_only Dec.float [] ["Converged YES
"] "Converged
").
  - constructor.
  - reflexivity.
  - vm_compute. lia.
Defined.

(** ** Aggregator *)

Section DriverFacts.

Context {F : Type}.
Variable py_float : string -> option F.
Variable w : World.

Implicit Types (summary : gmap string (gmap string (SummaryEntry F))).

Lemma summary_lookup_store_eq summary ph ty e :
  summary_lookup ph ty (summary_store ph ty e summary) = Some e.
Proof.
  unfold summary_lookup, summary_store.
  destruct (summary !! ph) as [m|] eqn:E.
  - rewrite lookup_alter_eq, E. simpl. apply lookup_insert_eq.
  - rewrite lookup_alter_eq, lookup_insert_eq. simpl.
    apply lookup_insert_eq.
Qed.

Lemma summary_lookup_store_ne summary ph ty ph' ty' e :
  (ph', ty') <> (ph, ty) ->
  summary_lookup ph ty (summary_store ph' ty' e summary)
  = summary_lookup ph ty summary.
Proof.
  intros Hne. unfold summary_lookup, summary_store.
  destruct (decide (ph' = ph)) as [->|Hph].
  - assert (Hty : ty' <> ty) by congruence.
    destruct (summary !! ph) as [m|] eqn:E.
    + rewrite lookup_alter_eq, E. simpl. now apply lookup_insert_ne.
    + rewrite lookup_alter_eq, lookup_insert_eq. simpl.
      now rewrite lookup_insert_ne.
  - destruct (summary !! ph') as [m|] eqn:E.
    + now rewrite lookup_alter_ne.
    + now rewrite lookup_alter_ne, lookup_insert_ne.
Qed.

Lemma bind_pure {A B} (x : A) (k : A -> M F B) :
  bind ([], inr x) k = k x.
Proof. unfold bind. now destruct (k x). Qed.

Lemma bind_inr {A B} (t : list (event F)) (x : A) (k : A -> M F B) :
  bind (t, inr x) k = (t ++ (k x).1, (k x).2).
Proof. unfold bind. now destruct (k x). Qed.

Lemma bind_inl {A B} (t : list (event F)) (e : exn) (k : A -> M F B) :
  bind (t, inl e) k = (t, inl e).
Proof. reflexivity. Qed.

(** With five entries per row, no index is out of range. *)
Lemma detail_step_five ph ty (parsed : FileResult F)
    (rows : list (DetailRow F)) name (data : option (list (option F))) :
  (forall row, data = Some row -> length row = 5) ->
  detail_step ph ty parsed rows (name, data) =
  ([], inr (rows ++
            match data with
            | Some [v0; v1; v2; v3; v4] =>
                [mkDetailRow ph ty name (converged parsed) v0 v1 v2 v3 v4]
            | _ => []
            end)).
Proof.
  intros H. destruct data as [row|]; simpl.
  - specialize (H row eq_refl).
    destruct row as [|v0 [|v1 [|v2 [|v3 [|v4 [|]]]]]]; try discriminate.
    reflexivity.
  - now rewrite app_nil_r.
Qed.

Lemma detail_rows_five ph ty (parsed : FileResult F)
    (rows : list (DetailRow F)) :
  rows_of_five parsed ->
  for_each (components parsed) (detail_step ph ty parsed) rows =
  ([], inr (rows ++ new_rows ph ty parsed)).
Proof.
  intros H. unfold new_rows, components. cbn [for_each flat_map].
  rewrite (detail_step_five _ _ _ _ "Her_K1") by apply (H "Her_K1").
  rewrite bind_pure.
  rewrite (detail_step_five _ _ _ _ "Her_K2") by apply (H "Her_K2").
  rewrite bind_pure.
  rewrite (detail_step_five _ _ _ _ "Her_K3") by apply (H "Her_K3").
  rewrite bind_pure.
  rewrite (detail_step_five _ _ _ _ "Her_All") by apply (H "Her_All").
  rewrite bind_pure. unfold ret. cbn [fst snd].
  rewrite app_nil_r, <- !app_assoc. reflexivity.
Qed.

Lemma process_file_readable (tables : Tables F) p :
  is_Some (file_text w p) ->
  process_file py_float w tables p =
  ([EvOpen p], inr (absorb py_float w tables p)).
Proof.
  intros [text Ht]. unfold process_file, absorb, read_lines.
  destruct (parse_filename p) as [ph ty]. rewrite Ht.
  unfold emit, ret. rewrite bind_inr. cbv beta. cbn [fst snd].
  rewrite bind_inr. cbv beta.
  rewrite detail_rows_five by apply rows_of_five_parse.
  rewrite bind_inr. reflexivity.
Qed.

Lemma for_each_readable (fs : list string) (tables : Tables F) :
  Forall (fun p => is_Some (file_text w p)) fs ->
  for_each fs (process_file py_float w) tables =
  (EvOpen <$> fs, inr (fold_left (absorb py_float w) fs tables)).
Proof.
  intros H. revert tables.
  induction H as [|p fs Hp _ IH]; intros tables; cbn [for_each];
    [reflexivity|].
  rewrite (process_file_readable tables p Hp), bind_inr, IH.
  reflexivity.
Qed.

(** The first unreadable file stops the run. *)
Lemma for_each_unreadable (fs1 fs2 : list string) p (tables : Tables F) :
  Forall (fun p => is_Some (file_text w p)) fs1 ->
  file_text w p = None ->
  for_each (fs1 ++ p :: fs2) (process_file py_float w) tables =
  (EvOpen <$> (fs1 ++ [p]), inl (OSError p)).
Proof.
  intros H Hp. revert tables.
  induction H as [|q fs Hq _ IH]; intros tables; cbn [for_each app].
  - unfold process_file, read_lines.
    destruct (parse_filename p) as [ph ty]. rewrite Hp. reflexivity.
  - rewrite (process_file_readable tables q Hq), bind_inr, IH.
    reflexivity.
Qed.

Lemma no_save_in_opens (fs : list string) :
  existsb is_save (EvOpen (F := F) <$> fs) = false.
Proof. induction fs as [|p fs IH]; [reflexivity | exact IH]. Qed.

Lemma sorted_elem_of (fs : list string) p : p ∈ sorted fs <-> p ∈ fs.
Proof. unfold sorted. now rewrite merge_sort_Permutation. Qed.

Lemma sorted_strongly (fs : list string) :
  StronglySorted String.le (sorted fs).
Proof. apply StronglySorted_merge_sort; apply _. Qed.

(** The glob order does not matter. *)
Lemma sorted_permutation (fs fs' : list string) :
  fs ≡ₚ fs' -> sorted fs = sorted fs'.
Proof.
  intros H. apply (StronglySorted_unique String.le);
    try apply sorted_strongly.
  unfold sorted. now rewrite !merge_sort_Permutation.
Qed.

Lemma process_files_readable (fs : list string) :
  (forall p, p ∈ fs -> is_Some (file_text w p)) ->
  process_files py_float w fs =
  (EvOpen <$> sorted fs,
   inr (fold_left (absorb py_float w) (sorted fs) (mkTables ∅ []))).
Proof.
  intros H. unfold process_files. apply for_each_readable.
  apply Forall_forall. intros p Hp. apply H. now apply sorted_elem_of.
Qed.

Lemma summary_lookup_absorb_ne (tables : Tables F) q ph ty :
  parse_filename q <> (ph, ty) ->
  summary_lookup ph ty (summary_data_dict (absorb py_float w tables q))
  = summary_lookup ph ty (summary_data_dict tables).
Proof.
  intros Hne. unfold absorb. simpl.
  apply summary_lookup_store_ne.
  destruct (parse_filename q). exact Hne.
Qed.

Lemma summary_lookup_fold_ne (fs : list string) (tables : Tables F) ph ty :
  Forall (fun q => parse_filename q <> (ph, ty)) fs ->
  summary_lookup ph ty
    (summary_data_dict (fold_left (absorb py_float w) fs tables))
  = summary_lookup ph ty (summary_data_dict tables).
Proof.
  intros H. revert tables.
  induction H as [|q fs Hq _ IH]; intros tables; simpl; [reflexivity|].
  rewrite IH. now apply summary_lookup_absorb_ne.
Qed.

(** In a sorted run, the last file of a (phenotype, category) pair is the
    one whose values the summary keeps. *)
Lemma summary_lookup_fold_last (l1 l2 : list string) p
    (tables : Tables F) :
  Forall (fun q => parse_filename q <> parse_filename p) l2 ->
  summary_lookup (parse_filename p).1 (parse_filename p).2
    (summary_data_dict
       (fold_left (absorb py_float w) (l1 ++ p :: l2) tables))
  = Some (summary_entry
            (parse_reml_file py_float (default "" (file_text w p)))).
Proof.
  intros H. rewrite fold_left_app. simpl.
  rewrite summary_lookup_fold_ne.
  - unfold absorb. simpl. apply summary_lookup_store_eq.
  - destruct (parse_filename p). exact H.
Qed.

End DriverFacts.

(** ** Detailed sheet *)

Section SheetFacts.

Context {F : Type}.

Implicit Types (ws : Sheet F) (v : value F).

Lemma cells_ws_cell r c v ws r' c' :
  cells (ws_cell r c v ws) !! (r', c') =
  if decide ((r, c) = (r', c'))
  then Some (put v (default blank (cells ws !! (r, c))))
  else cells ws !! (r', c').
Proof. unfold ws_cell. cbn [cells]. apply lookup_insert. Qed.

Lemma cells_set_bold r c ws r' c' :
  cells (set_bold r c ws) !! (r', c') =
  if decide ((r, c) = (r', c'))
  then (fun cl => mkCell (c_value cl) true (c_alignment cl))
         <$> cells ws !! (r, c)
  else cells ws !! (r', c').
Proof. unfold set_bold. cbn [cells]. apply lookup_alter. Qed.

(** One row of values written from column [start] on. *)
Lemma cells_write_row (row : list (value F)) r start ws r' c' :
  cells (for_enum start row (fun c v ws => ws_cell r c v ws) ws)
    !! (r', c') =
  match (if decide (r' = r /\ start <= c')
         then row !! (c' - start) else None) with
  | Some v => Some (put v (default blank (cells ws !! (r', c'))))
  | None => cells ws !! (r', c')
  end.
Proof.
  revert start ws. induction row as [|x row IH]; intros start ws.
  - cbn [for_enum]. now destruct (decide _).
  - cbn [for_enum]. rewrite IH, cells_ws_cell.
    destruct (decide (r' = r /\ S start <= c')) as [[-> Hc]|Hn].
    + destruct (decide (r = r /\ start <= c')) as [_|[]]; [|split; lia].
      replace (c' - start) with (S (c' - S start)) by lia.
      cbn [lookup list_lookup].
      destruct (decide ((r, start) = (r, c'))) as [[=]|_]; [lia|].
      reflexivity.
    + destruct (decide ((r, start) = (r', c'))) as [[= <- <-]|Hne].
      * destruct (decide (r = r /\ start <= start)) as [_|[]];
          [|split; lia].
        now rewrite Nat.sub_diag.
      * destruct (decide (r' = r /\ start <= c')) as [[-> Hc]|_];
          [|reflexivity].
        assert (c' = start) by lia. congruence.
Qed.

(** The rows of a table written from row [start] on, each from column 1. *)
Lemma cells_write_rows (rows : list (list (value F))) start ws r' c' :
  cells
    (for_enum start rows
       (fun r row ws =>
          for_enum 1 row (fun c v ws => ws_cell r c v ws) ws) ws)
    !! (r', c') =
  match (if decide (start <= r' /\ 1 <= c')
         then rows !! (r' - start) ≫= (.!! (c' - 1)) else None) with
  | Some v => Some (put v (default blank (cells ws !! (r', c'))))
  | None => cells ws !! (r', c')
  end.
Proof.
  revert start ws. induction rows as [|row rows IH]; intros start ws.
  - cbn [for_enum]. now destruct (decide _).
  - cbn [for_enum]. rewrite IH, cells_write_row.
    destruct (decide (S start <= r' /\ 1 <= c')) as [[Hr Hc]|Hn].
    + destruct (decide (start <= r' /\ 1 <= c')) as [_|[]]; [|split; lia].
      replace (r' - start) with (S (r' - S start)) by lia.
      cbn [lookup list_lookup].
      destruct (decide (r' = start /\ 1 <= c')) as [[-> _]|_]; [lia|].
      reflexivity.
    + destruct (decide (r' = start /\ 1 <= c')) as [[-> Hc]|Hne].
      * destruct (decide (start <= start /\ 1 <= c')) as [_|[]];
          [|split; lia].
        now rewrite Nat.sub_diag.
      * destruct (decide (start <= r' /\ 1 <= c')) as [[Hr Hc]|_];
          [|reflexivity].
        assert (r' = start) by lia. subst r'. exfalso. apply Hne.
        now split.
Qed.

(** The header row written from column [start] on. *)
Lemma cells_write_header (cols : list string) start ws r' c' :
  cells
    (for_enum start cols
       (fun c name ws => set_bold 1 c (ws_cell 1 c (VStr name) ws)) ws)
    !! (r', c') =
  match (if decide (r' = 1 /\ start <= c')
         then cols !! (c' - start) else None) with
  | Some name =>
      Some (mkCell (VStr name) true
              (c_alignment (default blank (cells ws !! (r', c')))))
  | None => cells ws !! (r', c')
  end.
Proof.
  revert start ws. induction cols as [|x cols IH]; intros start ws.
  - cbn [for_enum]. now destruct (decide _).
  - cbn [for_enum]. rewrite IH, cells_set_bold, !cells_ws_cell.
    destruct (decide (r' = 1 /\ S start <= c')) as [[-> Hc]|Hn].
    + destruct (decide (1 = 1 /\ start <= c')) as [_|[]]; [|split; lia].
      replace (c' - start) with (S (c' - S start)) by lia.
      cbn [lookup list_lookup].
      destruct (decide ((1, start) = (1, c'))) as [[=]|_]; [lia|].
      reflexivity.
    + destruct (decide ((1, start) = (r', c'))) as [[= <- <-]|Hne].
      * destruct (decide (1 = 1 /\ start <= start)) as [_|[]];
          [|split; lia].
        rewrite Nat.sub_diag. cbn [lookup list_lookup].
        destruct (decide ((1, start) = (1, start))); [|congruence].
        reflexivity.
      * destruct (decide (r' = 1 /\ start <= c')) as [[-> Hc]|_];
          [|reflexivity].
        assert (c' = start) by lia. congruence.
Qed.

Lemma row_items_keys (d : DetailRow F) :
  (row_items d).*1 = detail_columns.
Proof. reflexivity. Qed.

Lemma add_keys_detail_columns :
  add_keys detail_columns detail_columns = detail_columns.
Proof. vm_compute. reflexivity. Qed.

(** A non-empty table has the nine columns. *)
Lemma df_columns_detail (detailed : list (DetailRow F)) :
  detailed <> [] ->
  df_columns (map row_items detailed) = detail_columns.
Proof.
  destruct detailed as [|d rest]; [congruence|]. intros _.
  unfold df_columns. cbn [map fold_left]. rewrite row_items_keys.
  replace (add_keys [] detail_columns) with detail_columns
    by (vm_compute; reflexivity).
  induction rest as [|d' rest IH]; [reflexivity|].
  cbn [map fold_left].
  now rewrite row_items_keys, add_keys_detail_columns.
Qed.

Lemma df_itertuples_detail (detailed : list (DetailRow F)) :
  detailed <> [] ->
  df_itertuples (map row_items detailed)
  = map (fun d => (row_items d).*2) detailed.
Proof.
  intros H. unfold df_itertuples. rewrite df_columns_detail by exact H.
  rewrite map_map. apply map_ext. intros d. reflexivity.
Qed.

(** The detailed sheet of a non-empty table: row 1 holds the nine column
    names in bold, and nothing else. *)
Lemma detailed_sheet_header (detailed : list (DetailRow F)) c :
  detailed <> [] ->
  cells (detailed_sheet detailed) !! (1, c) =
  match c with
  | 0 => None
  | S k => (fun name => mkCell (VStr name) true None)
             <$> detail_columns !! k
  end.
Proof.
  intros H. unfold detailed_sheet.
  rewrite df_columns_detail, df_itertuples_detail by exact H.
  rewrite cells_write_rows.
  destruct (decide (2 <= 1 /\ 1 <= c)) as [[]|_]; [lia|].
  rewrite cells_write_header. cbn [cells]. rewrite lookup_empty.
  destruct c as [|k].
  - destruct (decide (1 = 1 /\ 1 <= 0)) as [[]|_]; [lia | reflexivity].
  - destruct (decide (1 = 1 /\ 1 <= S k)) as [_|[]]; [|split; lia].
    replace (S k - 1) with k by lia.
    now destruct (detail_columns !! k).
Qed.

(** Below the header, row [i + 2] holds the values of entry [i]. *)
Lemma detailed_sheet_entry (detailed : list (DetailRow F)) i c d :
  detailed !! i = Some d ->
  cells (detailed_sheet detailed) !! (i + 2, S c) =
  (fun v => mkCell v false None) <$> (row_items d).*2 !! c.
Proof.
  intros Hd.
  assert (H : detailed <> []) by (intros ->; discriminate).
  unfold detailed_sheet.
  rewrite df_columns_detail, df_itertuples_detail by exact H.
  rewrite cells_write_rows, cells_write_header.
  destruct (decide (2 <= i + 2 /\ 1 <= S c)) as [_|[]]; [|split; lia].
  destruct (decide (i + 2 = 1 /\ 1 <= S c)) as [[]|_]; [lia|].
  cbn [cells]. rewrite lookup_empty.
  replace (i + 2 - 2) with i by lia. replace (S c - 1) with c by lia.
  rewrite list_lookup_fmap, Hd. cbn [fmap option_fmap option_map mbind option_bind].
  destruct ((row_items d).*2 !! c) as [v|]; [|reflexivity].
  now destruct v.
Qed.

End SheetFacts.

(** ** Complete runs *)

Section RunFacts.

Context {F : Type}.
Variable py_float : string -> option F.


(** An unreadable file ends the run with its exception, before the
    imports are tried. *)
Lemma main_unreadable (w : World) (pattern output : string)
    (fs1 fs2 : list string) p :
  glob w pattern <> [] ->
  sorted (glob w pattern) = fs1 ++ p :: fs2 ->
  Forall (fun q => is_Some (file_text w q)) fs1 ->
  file_text w p = None ->
  main py_float w pattern output =
    (EvPrint ("Found " +:+ Py.str_of_nat (length (glob w pattern))
            +:+ " .reml files")
     :: (EvOpen <$> (fs1 ++ [p])),
     Raised (OSError p)).
Proof.
  intros Hne Hs Hread Hp. unfold main, main_body.
  destruct (glob w pattern) as [|f fs] eqn:E; [congruence|].
  unfold process_files. rewrite Hs.
  rewrite (for_each_unreadable py_float w fs1 fs2 p _ Hread Hp).
  unfold emit. rewrite bind_inr. cbv beta. rewrite bind_inl.
  reflexivity.
Qed.

End RunFacts.

(** *** Claims on the driver *)

Section DriverClaims.

Context {F : Type}.
Variable py_float : string -> option F.

(** C5. When the pattern matches no file, [main] prints a warning and
    returns normally; nothing is opened and no output file is saved. *)
Theorem C5_no_match_warns_and_returns (w : World)
    (pattern output : string) :
  glob w pattern = [] ->
  main py_float w pattern output =
    ([EvPrint ("Warning: No files found matching pattern '"
             +:+ pattern +:+ "'")], Returned)
  /\ existsb is_save (main py_float w pattern output).1 = false.
Proof.
  intros H. unfold main, main_body. rewrite H. split; reflexivity.
Qed.

(** What lines 157 to 160 keep of a component row, said without the
    code's conditional: entry 0 of the row, when the row is there, has
    an entry 0 and that entry is a number. *)
Lemma first_value_lookup (data : option (list (option F))) :
  first_value data = (data ≫= (.!! 0)) ≫= id.
Proof. now destruct data as [[|[x|] row]|]. Qed.

(** C4. Files are processed in sorted path order, whatever the order in
    which the pattern lists them; among the files that decode to one
    (phenotype, category) pair, the one that sorts last is the one whose
    values the summary table holds for the pair: its convergence status
    and, for each of the four components, the first number of the row
    parsed from that file (nothing where the component, or its first
    number, is absent). *)
Theorem C4_last_sorted_file_wins (w : World) (files : list string)
    (p text : string) :
  (forall q, q ∈ files -> is_Some (file_text w q)) ->
  p ∈ files ->
  file_text w p = Some text ->
  (forall q, q ∈ files -> parse_filename q = parse_filename p ->
             String.le q p) ->
  exists tables,
    process_files py_float w files = (EvOpen <$> sorted files, inr tables)
    /\ StronglySorted String.le (sorted files)
    /\ (forall files', files' ≡ₚ files ->
          process_files py_float w files' = process_files py_float w files)
    /\ summary_lookup (parse_filename p).1 (parse_filename p).2
         (summary_data_dict tables)
       = Some (mkSummaryEntry
                 (converged (parse_reml_file py_float text))
                 ((her_k1 (parse_reml_file py_float text) ≫= (.!! 0)) ≫= id)
                 ((her_k2 (parse_reml_file py_float text) ≫= (.!! 0)) ≫= id)
                 ((her_k3 (parse_reml_file py_float text) ≫= (.!! 0)) ≫= id)
                 ((her_all (parse_reml_file py_float text) ≫= (.!! 0)) ≫= id)).
Proof.
  intros Hread Hp Htext Hlast.
  rewrite <- !first_value_lookup.
  change (mkSummaryEntry _ _ _ _ _)
    with (summary_entry (parse_reml_file py_float text)).
  eexists. split; [apply process_files_readable, Hread|].
  split; [apply sorted_strongly|].
  split.
  { intros files' Hperm. unfold process_files.
    now rewrite (sorted_permutation files' files Hperm). }
  assert (Hps : p ∈ sorted files) by now apply sorted_elem_of.
  destruct (list_elem_of_split_r _ _ Hps) as (l1 & l2 & Hl & Hnot).
  rewrite Hl.
  rewrite summary_lookup_fold_last; [now rewrite Htext|].
  apply Forall_forall. intros q Hq Heq.
  assert (Hqs : q ∈ sorted files).
  { rewrite Hl. apply elem_of_app. right. now apply elem_of_cons; right. }
  assert (Hpq : String.le p q).
  { pose proof (sorted_strongly files) as Hs. rewrite Hl in Hs.
    apply StronglySorted_app_1_r, StronglySorted_cons in Hs.
    destruct Hs as [Hall _].
    rewrite Forall_forall in Hall. now apply Hall. }
  assert (Hqp : String.le q p).
  { apply Hlast; [now apply sorted_elem_of | exact Heq]. }
  assert (q = p) by (apply (anti_symm String.le); assumption).
  subst q. contradiction.
Qed.

(** C3, amended. With [openpyxl] or [pandas] missing, and at least one
    file matched and every matched file readable, [main] first reads and
    parses every file in sorted order, only then tries the imports,
    prints the error message and returns normally; no output file is
    saved. *)
Theorem C3_missing_libs_found_after_parsing (w : World)
    (pattern output : string) :
  libs_available w = false ->
  glob w pattern <> [] ->
  (forall p, p ∈ glob w pattern -> is_Some (file_text w p)) ->
  main py_float w pattern output =
    (EvPrint ("Found " +:+ Py.str_of_nat (length (glob w pattern))
            +:+ " .reml files")
     :: (EvOpen <$> sorted (glob w pattern))
     ++ [EvImport;
         EvPrint "Error: openpyxl and pandas are required. Please install them with: pip install pandas openpyxl"],
     Returned)
  /\ existsb is_save (main py_float w pattern output).1 = false.
Proof.
  intros Hlibs Hne Hread.
  assert (E : main py_float w pattern output =
    (EvPrint ("Found " +:+ Py.str_of_nat (length (glob w pattern))
            +:+ " .reml files")
     :: (EvOpen <$> sorted (glob w pattern))
     ++ [EvImport;
         EvPrint "Error: openpyxl and pandas are required. Please install them with: pip install pandas openpyxl"],
     Returned)).
  { unfold main, main_body.
    destruct (glob w pattern) as [|f fs] eqn:E; [congruence|].
    rewrite (process_files_readable py_float w (f :: fs) Hread).
    rewrite Hlibs. unfold emit.
    rewrite bind_inr. cbv beta. rewrite bind_inr. cbv beta.
    rewrite bind_inr. reflexivity. }
  split; [exact E|]. rewrite E. cbn [fst existsb is_save orb].
  rewrite existsb_app, no_save_in_opens. reflexivity.
Qed.

End DriverClaims.

Lemma C5_witness :
  main Dec.float world_empty "d/*.reml" "out.xlsx" =
    ([EvPrint "Warning: No files found matching pattern 'd/*.reml'"],
     Returned)
  /\ existsb is_save
       (main Dec.float world_empty "d/*.reml" "out.xlsx").1 = false.
Proof.
  apply (C5_no_match_warns_and_returns Dec.float world_empty). reflexivity.
Defined.

Lemma C4_witness :
  exists tables,
    process_files Dec.float world_clash ["b/A.X.reml"; "a/A.X.reml"]
    = (EvOpen <$> sorted ["b/A.X.reml"; "a/A.X.reml"], inr tables)
    /\ StronglySorted String.le (sorted ["b/A.X.reml"; "a/A.X.reml"])
    /\ (forall files', files' ≡ₚ ["b/A.X.reml"; "a/A.X.reml"] ->
          process_files Dec.float world_clash files'
          = process_files Dec.float world_clash
              ["b/A.X.reml"; "a/A.X.reml"])
    /\ summary_lookup (parse_filename "b/A.X.reml").1
         (parse_filename "b/A.X.reml").2 (summary_data_dict tables)
       = Some (mkSummaryEntry None (Some (7%Z, 0%nat)) (Some (9%Z, 1%nat))
                 None None).
Proof.
  apply (C4_last_sorted_file_wins Dec.float world_clash
           ["b/A.X.reml"; "a/A.X.reml"] "b/A.X.reml" repeated_report).
  - apply Forall_forall. repeat constructor; vm_compute; eauto.
  - repeat constructor.
  - reflexivity.
  - apply (Forall_forall
             (fun q => parse_filename q = parse_filename "b/A.X.reml" ->
                       String.le q "b/A.X.reml")).
    repeat constructor; intros _; vm_compute; exact I.
Defined.

(** C3 as stated fails: with the libraries missing, the file is opened
    before the imports are tried, and the run returns normally. *)
Lemma C3_counterexample :
  libs_available world_no_libs = false /\
  main Dec.float world_no_libs "d/*.reml" "out.xlsx" =
    ([EvPrint "Found 1 .reml files"; EvOpen "d/A.X.reml"; EvImport;
      EvPrint "Error: openpyxl and pandas are required. Please install them with: pip install pandas openpyxl"],
     Returned) /\
  ~ imports_first (main Dec.float world_no_libs "d/*.reml" "out.xlsx").1.
Proof.
  split; [reflexivity|]. split; [vm_compute; reflexivity|].
  intros (t1 & t2 & E & H). vm_compute in E.
  destruct t1 as [|a [|b [|c [|d t1]]]]; try discriminate E.
  - simplify_eq/=.
  - destruct t1; simplify_eq/=.
Qed.

Lemma C3_witness :
  main Dec.float world_no_libs "d/*.reml" "out.xlsx" =
    (EvPrint ("Found " +:+ Py.str_of_nat 1 +:+ " .reml files")
     :: (EvOpen <$> sorted ["d/A.X.reml"])
     ++ [EvImport;
         EvPrint "Error: openpyxl and pandas are required. Please install them with: pip install pandas openpyxl"],
     Returned)
  /\ existsb is_save
       (main Dec.float world_no_libs "d/*.reml" "out.xlsx").1 = false.
Proof.
  apply (C3_missing_libs_found_after_parsing Dec.float world_no_libs
           "d/*.reml" "out.xlsx").
  - reflexivity.
  - discriminate.
  - apply Forall_forall. repeat constructor; vm_compute; eauto.
Defined.

(** An empty table gives a sheet without any cell. *)
Lemma detailed_sheet_nil {F : Type} :
  detailed_sheet (F := F) [] = mkSheet "Detailed Information" ∅ [].
Proof. reflexivity. Qed.

(** C7: a run whose files hold no recognized component saves a detailed
    sheet without any cell, so without the header row. *)
Theorem C7_no_component_no_header :
  exists summary,
    main Dec.float world_no_component "d/*.reml" "out.xlsx" =
      ([EvPrint "Found 1 .reml files"; EvOpen "d/A.X.reml"; EvImport;
        EvSave "out.xlsx" [summary; mkSheet "Detailed Information" ∅ []];
        EvPrint "Successfully wrote results to out.xlsx";
        EvPrint "  - Summary sheet: 1 rows (with merged headers)";
        EvPrint "  - Detailed sheet: 0 rows"],
       Returned).
Proof. eexists. vm_compute. reflexivity. Qed.

(** C1: every occurrence of [.reml] is removed from the base name, not only
    the extension. *)
Theorem C1_extension_inside_the_name :
  parse_filename "d/x.remly.SV.reml" = ("xy", "SV") /\
  parse_filename "d/A.reml.reml" = ("A", "UNKNOWN").
Proof. split; reflexivity. Qed.

(** * Further properties *)

(** ** Filename decoder: every path *)

Section FilenameShape.

Local Open Scope Z_scope.

(** A string that holds [c] splits at the last [c]. *)
Lemma last_occurrence c (s : string) :
  Py.has_char c s = true ->
  exists s1 s2, s = s1 +:+ String c s2 /\ Py.has_char c s2 = false.
Proof.
  induction s as [|a s IH]; [discriminate|].
  cbn [Py.has_char]. intros H.
  destruct (Py.has_char c s) eqn:Hs.
  - destruct (IH eq_refl) as (s1 & s2 & -> & H2).
    exists (String a s1), s2. now rewrite str_append_cons.
  - rewrite orb_false_r in H. apply Ascii.eqb_eq in H. subst a.
    exists "", s. now rewrite str_append_nil.
Qed.

Lemma rsplit1_absent sep (s : string) :
  Py.has_char sep s = false -> Py.rsplit1 sep s = [s].
Proof.
  intros H. unfold Py.rsplit1, Py.rfind.
  now rewrite rfind_from_absent by exact H.
Qed.

Lemma match_stem_dot_tail_absent (s : string) :
  Py.has_char "." s = false -> Py.match_stem_dot_tail s = None.
Proof.
  intros H. unfold Py.match_stem_dot_tail, Py.rfind.
  now rewrite rfind_from_absent by exact H.
Qed.

(** A path is a directory part, empty or ending in a slash, and a base
    name without slash. *)
Lemma basename_split (p : string) :
  exists dir name,
    p = dir +:+ name /\ (dir = "" \/ exists d, dir = d +:+ "/") /\
    Py.has_char "/" name = false /\ Py.basename p = name.
Proof.
  destruct (Py.has_char "/" p) eqn:H.
  - destruct (last_occurrence "/" p H) as (s1 & s2 & -> & H2).
    exists (s1 +:+ "/"), s2.
    assert (Hd : s1 +:+ "/" = "" \/ exists d, s1 +:+ "/" = d +:+ "/")
      by (right; now exists s1).
    split; [|split; [exact Hd|split; [exact H2|]]].
    + now rewrite str_append_assoc.
    + change (String "/" s2) with ("/" +:+ s2).
      rewrite <- str_append_assoc. now apply basename_dir.
  - exists "", p. repeat split; auto.
    apply (basename_dir "" p); auto.
Qed.

(** Removing occurrences never brings in a character. *)
Lemma has_char_replace_go c old (s : string) k :
  Py.has_char c s = false ->
  Py.has_char c (Py.replace_go old "" k s) = false.
Proof.
  revert k. induction s as [|a s IH]; intros k H; [reflexivity|].
  cbn [Py.has_char] in H. apply orb_false_iff in H as [Ha Hs].
  cbn [Py.replace_go]. destruct k as [|k]; [|now apply IH].
  destruct (String.prefix old (String a s)).
  - rewrite str_append_nil. now apply IH.
  - cbn [Py.has_char]. rewrite Ha. now apply IH.
Qed.

(** Whatever the path, the result is the stripped base name cut at its
    last dot, or the whole name with [UNKNOWN] when it holds no dot. *)
Lemma parse_filename_shape (filename : string) :
  let name := Py.replace ".reml" "" (Py.basename filename) in
  (Py.has_char "." name = false
   /\ parse_filename filename = (name, "UNKNOWN"))
  \/ (exists ph ty,
        parse_filename filename = (ph, ty)
        /\ name = ph +:+ "." +:+ ty
        /\ Py.has_char "." ty = false).
Proof.
  intros name. unfold parse_filename. fold name.
  destruct (Py.has_char "." name) eqn:H.
  - right. destruct (last_occurrence "." name H) as (ph & ty & E & Hty).
    exists ph, ty. rewrite E at 1. rewrite rsplit1_last by exact Hty.
    repeat split; assumption.
  - left. split; [reflexivity|].
    now rewrite rsplit1_absent, match_stem_dot_tail_absent.
Qed.

End FilenameShape.

(** X1. A base name [P.Q.reml], where [Q] holds no dot and [.reml] occurs
    nowhere in [P.Q], decodes to phenotype [P] and category [Q], in any
    directory. *)
Theorem X1_plain_name_decodes (dir P Q : string) :
  dir = "" \/ (exists d, dir = d +:+ "/") ->
  Py.has_char "/" P = false ->
  Py.has_char "/" Q = false ->
  Py.has_char "." Q = false ->
  Py.occurs ".reml" (P +:+ "." +:+ Q) = false ->
  parse_filename (dir +:+ P +:+ "." +:+ Q +:+ ".reml") = (P, Q).
Proof. apply parse_filename_plain. Qed.

Lemma X1_witness :
  parse_filename ("out/run.1/" +:+ "GYP.BLUP" +:+ "." +:+ "SV" +:+ ".reml")
  = ("GYP.BLUP", "SV").
Proof.
  apply (X1_plain_name_decodes "out/run.1/" "GYP.BLUP" "SV").
  - right. now exists "out/run.1".
  - reflexivity.
  - reflexivity.
  - reflexivity.
  - reflexivity.
Defined.

(** X2. For every path, the decoder cuts the stripped base name at its
    last dot: either the name holds no dot and the category is [UNKNOWN],
    or phenotype, dot and category give the name back and the category
    holds no dot.  The regular expression of the fallback never matches. *)
Theorem X2_cut_at_last_dot (filename : string) :
  let name := Py.replace ".reml" "" (Py.basename filename) in
  (Py.has_char "." name = false
   /\ Py.match_stem_dot_tail name = None
   /\ parse_filename filename = (name, "UNKNOWN"))
  \/ (exists ph ty,
        parse_filename filename = (ph, ty)
        /\ name = ph +:+ "." +:+ ty
        /\ Py.has_char "." ty = false).
Proof.
  intros name. destruct (parse_filename_shape filename) as [[H E]|H].
  - left. split; [exact H|]. split; [|exact E].
    now apply match_stem_dot_tail_absent.
  - right. exact H.
Qed.

(** X3. A base name without dot before the extension decodes to the whole
    name with the category [UNKNOWN]. *)
Theorem X3_no_dot_is_unknown (dir name : string) :
  dir = "" \/ (exists d, dir = d +:+ "/") ->
  Py.has_char "/" name = false ->
  Py.has_char "." name = false ->
  parse_filename (dir +:+ name +:+ ".reml") = (name, "UNKNOWN").
Proof. apply parse_filename_no_dot. Qed.

Lemma X3_witness :
  parse_filename ("d/" +:+ "plain" +:+ ".reml") = ("plain", "UNKNOWN").
Proof.
  apply (X3_no_dot_is_unknown "d/" "plain").
  - right. now exists "d".
  - reflexivity.
  - reflexivity.
Defined.

(** X4. Only the base name counts: a file decodes to the same pair in
    every directory. *)
Theorem X4_directory_is_ignored (d name : string) :
  Py.has_char "/" name = false ->
  parse_filename (d +:+ "/" +:+ name) = parse_filename name.
Proof.
  intros H. unfold parse_filename.
  rewrite <- (str_append_assoc d "/" name).
  rewrite (basename_dir (d +:+ "/") name); [|right; now exists d|exact H].
  assert (E : Py.basename name = name)
    by (apply (basename_dir "" name); [now left | exact H]).
  now rewrite E.
Qed.

Lemma X4_witness :
  parse_filename ("a/b" +:+ "/" +:+ "A.X.reml") = parse_filename "A.X.reml".
Proof. apply (X4_directory_is_ignored "a/b" "A.X.reml"). reflexivity. Defined.

(** X5. For every path, neither the phenotype nor the category holds a
    slash, and the category holds no dot. *)
Theorem X5_no_separator_in_result (filename : string) :
  Py.has_char "/" (parse_filename filename).1 = false
  /\ Py.has_char "/" (parse_filename filename).2 = false
  /\ Py.has_char "." (parse_filename filename).2 = false.
Proof.
  destruct (basename_split filename) as (dir & base & _ & _ & Hb & Eb).
  assert (Hn : Py.has_char "/" (Py.replace ".reml" "" (Py.basename filename))
               = false).
  { rewrite Eb. now apply has_char_replace_go. }
  destruct (parse_filename_shape filename) as [[H E]|(ph & ty & E & En & H)].
  - rewrite E. cbn [fst snd]. repeat split; [exact Hn|reflexivity..].
  - rewrite E. cbn [fst snd]. rewrite En, !has_char_app in Hn.
    apply orb_false_iff in Hn as [Hph Hrest].
    apply orb_false_iff in Hrest as [_ Hty].
    repeat split; assumption.
Qed.

(** ** Report parser: the whole section *)

Section ParserMore.

Context {F : Type}.
Variable py_float : string -> option F.

Implicit Types (r : FileResult F) (lab raw : string).

Lemma store_unrecognized lab (row : list (option F)) r :
  recognized lab = false -> store lab row r = r.
Proof.
  unfold recognized, store. intros H.
  repeat (apply orb_false_iff in H as [H ?]).
  now repeat match goal with
             | E : String.eqb _ _ = false |- _ => rewrite E; clear E
             end.
Qed.

(** A line that bears no recognized label leaves the result as it is:
    blank lines, a label alone, other labels. *)
Lemma parse_line_ignored r raw :
  (forall lab, recognized lab = true -> bears lab raw = false) ->
  parse_line py_float r raw = r.
Proof.
  intros H. rewrite parse_line_tokens.
  destruct (tokens raw) as [|lab [|v vs]] eqn:E; try reflexivity.
  apply store_unrecognized.
  destruct (recognized lab) eqn:Hrec; [|reflexivity].
  specialize (H lab Hrec). unfold bears in H. rewrite E in H.
  now rewrite String.eqb_refl in H.
Qed.

Lemma component_unrecognized lab r :
  recognized lab = false -> component lab r = None.
Proof.
  unfold recognized, component. intros H.
  repeat (apply orb_false_iff in H as [H ?]).
  now repeat match goal with
             | E : String.eqb _ _ = false |- _ => rewrite E; clear E
             end.
Qed.

(** The row kept for a label after a run of lines: the row of the last
    line that bears it, or what was there before. *)
Lemma component_fold lab (sec : list string) r :
  recognized lab = true ->
  component lab (fold_left (parse_line py_float) sec r) =
  match last (List.filter (bears lab) sec) with
  | Some l => Some (pad5 (parse_values py_float (List.tl (tokens l))))
  | None => component lab r
  end.
Proof.
  intros Hrec. revert r.
  induction sec as [|l sec IH]; intros r; [reflexivity|].
  cbn [fold_left List.filter]. rewrite IH, component_parse_line, Hrec.
  cbn [andb].
  destruct (bears lab l); [|reflexivity].
  destruct (List.filter (bears lab) sec) as [|l' rest] eqn:E;
    [reflexivity|].
  change (last (l :: l' :: rest)) with (last (l' :: rest)).
  now destruct (last (l' :: rest)) eqn:El;
    [|apply last_None in El; discriminate].
Qed.

End ParserMore.

Section ParserExtras.

Context {F : Type}.
Variable py_float : string -> option F.

(** X6. Without any line that starts with [Component], the result holds
    no component at all; the convergence value is read all the same. *)
Theorem X6_no_header_no_component (lines : list string) :
  Forall (fun l => Py.startswith l "Component" = false) lines ->
  parse_reml_lines py_float lines =
  mkFileResult (scan_converged lines) None None None None.
Proof.
  intros H. rewrite parse_reml_lines_section.
  now rewrite (component_section_none lines H).
Qed.

(** X7. For each of the four labels, the row kept is the row read from
    the last line of the section that bears the label, and the component
    is absent exactly when no line bears it. *)
Theorem X7_row_of_last_bearing_line (lines sec : list string)
    (lab : string) :
  component_section lines = Some sec ->
  recognized lab = true ->
  component lab (parse_reml_lines py_float lines) =
  (fun l => pad5 (parse_values py_float (List.tl (tokens l))))
    <$> last (List.filter (bears lab) sec).
Proof.
  intros Hsec Hrec. rewrite parse_reml_lines_section, Hsec.
  cbv zeta. rewrite (component_fold py_float lab sec _ Hrec).
  rewrite component_fresh.
  now destruct (last (List.filter (bears lab) sec)).
Qed.

(** X8. A line of the section that bears none of the four labels (a
    blank line, a label alone, another label) can be taken out without
    any change to the four components. *)
Theorem X8_other_lines_do_not_count (lines lines' s1 s2 : list string)
    (raw lab : string) :
  component_section lines = Some (s1 ++ raw :: s2) ->
  component_section lines' = Some (s1 ++ s2) ->
  length (tokens raw) < 2 \/ recognized (hd "" (tokens raw)) = false ->
  component lab (parse_reml_lines py_float lines)
  = component lab (parse_reml_lines py_float lines').
Proof.
  intros Hsec Hsec' Hor.
  assert (Hraw : forall lab', recognized lab' = true ->
                              bears lab' raw = false).
  { intros lab' Hrec. unfold bears.
    destruct (tokens raw) as [|t [|v vs]]; try reflexivity.
    destruct Hor as [Hlen|Hun]; [simpl in Hlen; lia|].
    cbn [hd] in Hun. destruct (String.eqb_spec t lab'); [|reflexivity].
    congruence. }
  rewrite !parse_reml_lines_section, Hsec, Hsec'. cbv zeta.
  rewrite !fold_left_app. cbn [fold_left].
  rewrite (parse_line_ignored py_float _ raw Hraw).
  destruct (recognized lab) eqn:Hrec.
  - rewrite !(component_fold py_float lab s2 _ Hrec).
    destruct (last (List.filter (bears lab) s2)); [reflexivity|].
    rewrite !(component_fold py_float lab s1 _ Hrec).
    now rewrite !component_fresh.
  - now rewrite !component_unrecognized.
Qed.

(** X9. From a line with five value tokens or more, the row holds the
    first five values as parsed; what follows the fifth is dropped. *)
Theorem X9_tokens_after_the_fifth_are_dropped
    (lines mid post : list string) (raw lab : string)
    (vals : list string) :
  component_section lines = Some (mid ++ raw :: post) ->
  tokens raw = lab :: vals ->
  recognized lab = true ->
  5 <= length vals ->
  Forall (fun l => bears lab l = false) post ->
  component lab (parse_reml_lines py_float lines) =
  Some (map (parse_value py_float) (take 5 vals)).
Proof.
  intros Hsec Htok Hrec Hlen Hpost.
  rewrite parse_reml_lines_section, Hsec. cbv zeta.
  assert (Hb : bears lab raw = true).
  { unfold bears. rewrite Htok. destruct vals; simpl in *; [lia|].
    apply String.eqb_refl. }
  rewrite (component_fold_last py_float lab mid post raw _ Hrec Hb Hpost).
  rewrite Htok. cbn [List.tl]. unfold pad5, parse_values.
  rewrite length_map, length_take.
  replace (5 - 5 `min` length vals) with 0 by lia.
  now rewrite app_nil_r.
Qed.

(** X10. Lines before the header give no component, whatever they hold:
    the four components are those of the file cut at the header. *)
Theorem X10_lines_before_the_header_do_not_count
    (pre rest : list string) (header lab : string) :
  Forall (fun l => Py.startswith l "Component" = false) pre ->
  Py.startswith header "Component" = true ->
  component lab (parse_reml_lines py_float (pre ++ header :: rest))
  = component lab (parse_reml_lines py_float (header :: rest)).
Proof.
  intros Hpre Hh.
  rewrite !parse_reml_lines_section.
  rewrite (component_section_after_header pre rest header Hpre Hh).
  assert (E : component_section (header :: rest) = Some rest)
    by (apply (component_section_after_header [] rest header);
        [constructor | exact Hh]).
  rewrite E. cbv zeta. destruct (recognized lab) eqn:Hrec.
  - rewrite !(component_fold py_float lab rest _ Hrec).
    now rewrite !component_fresh.
  - now rewrite !component_unrecognized.
Qed.

(** X11. Without any line that starts with [Converged], the convergence
    value is absent, with or without a component section. *)
Theorem X11_no_converged_line (lines : list string) :
  Forall (fun l => Py.startswith l "Converged" = false) lines ->
  converged (parse_reml_lines py_float lines) = None.
Proof.
  intros H. rewrite converged_parse.
  induction H as [|l ls Hl _ IH]; [reflexivity|].
  cbn [scan_converged]. now rewrite Hl.
Qed.

End ParserExtras.

(** X12. The two keywords are looked for at the very start of the raw
    line: a line that starts with white space is neither a [Converged]
    line nor the header, whatever its tokens. *)
Theorem X12_indented_keyword_is_not_seen (c : ascii) (s : string)
    (rest : list string) (i : nat) :
  Py.isspace c = true ->
  scan_converged (String c s :: rest) = scan_converged rest
  /\ scan_component i (String c s :: rest) = scan_component (S i) rest.
Proof.
  intros Hc.
  assert (Hne : c <> "C"%char) by (intros ->; discriminate Hc).
  cbn [scan_converged scan_component]. unfold Py.startswith.
  cbn [String.prefix].
  destruct (ascii_dec "C" c) as [E|_]; [now subst c|].
  split; reflexivity.
Qed.

Lemma X6_witness :
  parse_reml_lines Dec.float (readlines converged_twice_report) =
  mkFileResult (scan_converged (readlines converged_twice_report))
    None None None None.
Proof.
  apply (X6_no_header_no_component Dec.float).
  vm_compute. repeat constructor.
Defined.

Lemma X7_witness :
  component "Her_K2"
    (parse_reml_lines Dec.float (readlines repeated_report)) =
  (fun l => pad5 (parse_values Dec.float (List.tl (tokens l))))
    <$> last (List.filter (bears "Her_K2")
                ["Her_K2 0.1 0.2 0.3 0.4 0.5
"; "Her_K1 7
"; "Her_K2 0.9 oops NA 1.5 2 extra
"; "Other 1 2 3
"]).
Proof.
  apply (X7_row_of_last_bearing_line Dec.float
           (readlines repeated_report)).
  - vm_compute. reflexivity.
  - reflexivity.
Defined.

Lemma X8_witness :
  component "Her_K2"
    (parse_reml_lines Dec.float (readlines repeated_report))
  = component "Her_K2"
      (parse_reml_lines Dec.float
         ["Component
"; "Her_K2 0.1 0.2 0.3 0.4 0.5
"; "Her_K1 7
"; "Her_K2 0.9 oops NA 1.5 2 extra
"]).
Proof.
  apply (X8_other_lines_do_not_count Dec.float
           (readlines repeated_report) _
           ["Her_K2 0.1 0.2 0.3 0.4 0.5
"; "Her_K1 7
"; "Her_K2 0.9 oops NA 1.5 2 extra
"] [] "Other 1 2 3
").
  - vm_compute. reflexivity.
  - vm_compute. reflexivity.
  - right. reflexivity.
Defined.

Lemma X9_witness :
  component "Her_K2"
    (parse_reml_lines Dec.float (readlines repeated_report))
  = Some (map (parse_value Dec.float)
            (take 5 ["0.9"; "oops"; "NA"; "1.5"; "2"; "extra"])).
Proof.
  apply (X9_tokens_after_the_fifth_are_dropped Dec.float
           (readlines repeated_report)
           ["Her_K2 0.1 0.2 0.3 0.4 0.5
"; "Her_K1 7
"] ["Other 1 2 3
"] "Her_K2 0.9 oops NA 1.5 2 extra
" "Her_K2").
  - vm_compute. reflexivity.
  - vm_compute. reflexivity.
  - reflexivity.
  - simpl. lia.
  - repeat constructor.
Defined.

Lemma X10_witness :
  component "Her_K1" (parse_reml_lines Dec.float (readlines early_report))
  = component "Her_K1"
      (parse_reml_lines Dec.float
         ("Component Heritability SE Size Mega_Intensity SE
" :: ["Her_K2 1 2 3 4 5
"])).
Proof.
  apply (X10_lines_before_the_header_do_not_count Dec.float
           ["Her_K1 9 9 9 9 9
"] ["Her_K2 1 2 3 4 5
"] "Component Heritability SE Size Mega_Intensity SE
" "Her_K1").
  - repeat constructor.
  - reflexivity.
Defined.

Lemma X11_witness :
  converged (parse_reml_lines Dec.float (readlines bare_label_report))
  = None.
Proof.
  apply (X11_no_converged_line Dec.float).
  vm_compute. repeat constructor.
Defined.

Lemma X12_witness :
  scan_converged [" Converged YES
"] = scan_converged []
  /\ scan_component 0 [" Converged YES
"] = scan_component 1 [].
Proof. apply (X12_indented_keyword_is_not_seen " "). reflexivity. Defined.

(** ** Aggregator: the two tables *)

Section TablesMore.

Context {F : Type}.
Variable py_float : string -> option F.
Variable w : World.

Implicit Types (summary : gmap string (gmap string (SummaryEntry F))).

Lemma summary_lookup_store summary ph ty ph' ty' e :
  summary_lookup ph ty (summary_store ph' ty' e summary) =
  if decide ((ph', ty') = (ph, ty)) then Some e
  else summary_lookup ph ty summary.
Proof.
  destruct (decide ((ph', ty') = (ph, ty))) as [[= -> ->]|Hne].
  - apply summary_lookup_store_eq.
  - now apply summary_lookup_store_ne.
Qed.

Lemma dom_summary_store summary ph ty e :
  dom (summary_store ph ty e summary) = {[ph]} ∪ dom summary.
Proof.
  unfold summary_store. rewrite dom_alter_L.
  destruct (summary !! ph) as [m|] eqn:E.
  - apply elem_of_dom_2 in E. apply set_eq. intros x.
    rewrite elem_of_union, elem_of_singleton.
    split; [now right | now intros [->|]].
  - apply dom_insert_L.
Qed.


Lemma detailed_fold (fs : list string) (tables : Tables F) :
  detailed_data (fold_left (absorb py_float w) fs tables) =
  detailed_data tables
  ++ flat_map
       (fun p =>
          new_rows (parse_filename p).1 (parse_filename p).2
            (parse_reml_file py_float (default "" (file_text w p))))
       fs.
Proof.
  revert tables. induction fs as [|p fs IH]; intros tables.
  - cbn [fold_left flat_map]. now rewrite app_nil_r.
  - cbn [fold_left flat_map]. rewrite IH. unfold absorb.
    cbn [detailed_data]. now rewrite app_assoc.
Qed.

Lemma length_new_rows ph ty (parsed : FileResult F) :
  length (new_rows ph ty parsed) <= 4.
Proof.
  unfold new_rows, components. cbn [flat_map fst snd].
  rewrite !length_app.
  repeat match goal with
         | |- context [match ?x with _ => _ end] => destruct x
         end; cbn [length]; lia.
Qed.

(** One detail row per component present, in the fixed order. *)
Lemma new_rows_components ph ty (parsed : FileResult F) :
  rows_of_five parsed ->
  d_component <$> new_rows ph ty parsed
  = filter (fun lab => is_Some (component lab parsed)) component_labels.
Proof.
  intros H.
  pose proof (H "Her_K1") as H1. pose proof (H "Her_K2") as H2.
  pose proof (H "Her_K3") as H3. pose proof (H "Her_All") as H4.
  unfold new_rows, components, component_labels.
  cbn [flat_map fst snd]. rewrite !filter_cons, filter_nil.
  change (component "Her_K1" parsed) with (her_k1 parsed) in *.
  change (component "Her_K2" parsed) with (her_k2 parsed) in *.
  change (component "Her_K3" parsed) with (her_k3 parsed) in *.
  change (component "Her_All" parsed) with (her_all parsed) in *.
  assert (five : forall (c : option (list (option F))) lab,
            (forall row, c = Some row -> length row = 5) ->
            d_component <$>
              match c with
              | Some [v0; v1; v2; v3; v4] =>
                  [mkDetailRow ph ty lab (converged parsed)
                     v0 v1 v2 v3 v4]
              | _ => []
              end
            = if decide (is_Some c) then [lab] else []).
  { intros c lab Hc. destruct c as [row|].
    - specialize (Hc row eq_refl).
      destruct row as [|v0 [|v1 [|v2 [|v3 [|v4 [|]]]]]];
        try discriminate Hc.
      destruct (decide (is_Some (Some [v0; v1; v2; v3; v4])))
        as [_|Hn]; [reflexivity|].
      exfalso. apply Hn. eauto.
    - destruct (decide (is_Some (@None (list (option F)))))
        as [[? ?]|_]; [discriminate | reflexivity]. }
  rewrite !fmap_app, fmap_nil.
  rewrite (five _ "Her_K1" H1), (five _ "Her_K2" H2),
    (five _ "Her_K3" H3), (five _ "Her_All" H4).
  repeat destruct (decide _); reflexivity.
Qed.

Lemma fmap_flat_map {A B C} (f : B -> C) (g : A -> list B) (l : list A) :
  f <$> flat_map g l = flat_map (fun x => f <$> g x) l.
Proof.
  induction l as [|x l IH]; [reflexivity|].
  cbn [flat_map]. now rewrite fmap_app, IH.
Qed.

Lemma summary_fold_is_Some (fs : list string) (tables : Tables F) ph ty :
  is_Some (summary_lookup ph ty
             (summary_data_dict (fold_left (absorb py_float w) fs tables)))
  <-> is_Some (summary_lookup ph ty (summary_data_dict tables))
      \/ exists p, p ∈ fs /\ parse_filename p = (ph, ty).
Proof.
  revert tables. induction fs as [|q fs IH]; intros tables.
  - cbn [fold_left]. split; [now left|].
    intros [H|(p & Hp & _)]; [exact H|]. now apply elem_of_nil in Hp.
  - cbn [fold_left]. rewrite IH. unfold absorb.
    cbn [summary_data_dict]. rewrite summary_lookup_store.
    destruct (parse_filename q) as [ph' ty'] eqn:Eq. cbn [fst snd].
    destruct (decide ((ph', ty') = (ph, ty))) as [E|Hne].
    + split; [|intros _; left; eauto].
      intros _. right. exists q. split; [apply elem_of_cons; now left|].
      congruence.
    + split.
      * intros [H|(p & Hp & Ep)]; [now left|].
        right. exists p. split; [apply elem_of_cons; now right|exact Ep].
      * intros [H|(p & Hp & Ep)]; [now left|].
        apply elem_of_cons in Hp as [->|Hp]; [congruence|].
        right. now exists p.
Qed.

Lemma dom_summary_fold (fs : list string) (tables : Tables F) :
  dom (summary_data_dict (fold_left (absorb py_float w) fs tables)) =
  dom (summary_data_dict tables)
  ∪ list_to_set ((fun p => (parse_filename p).1) <$> fs).
Proof.
  revert tables. induction fs as [|q fs IH]; intros tables.
  - cbn [fold_left fmap list_fmap list_to_set].
    now rewrite (right_id_L ∅ (∪)).
  - cbn [fold_left]. rewrite IH. unfold absorb.
    cbn [summary_data_dict]. rewrite dom_summary_store.
    rewrite fmap_cons. cbn [list_to_set].
    apply set_eq. intros x. rewrite !elem_of_union. tauto.
Qed.

End TablesMore.

Section TablesExtras.

Context {F : Type}.
Variable py_float : string -> option F.


(** X14. When a file cannot be read, the run ends with its exception
    after the files before it were read: the imports are not tried and
    nothing is saved or reported. *)
Theorem X14_unreadable_file_ends_the_run (w : World)
    (pattern output : string) (fs1 fs2 : list string) (p : string) :
  glob w pattern <> [] ->
  sorted (glob w pattern) = fs1 ++ p :: fs2 ->
  Forall (fun q => is_Some (file_text w q)) fs1 ->
  file_text w p = None ->
  main py_float w pattern output =
    (EvPrint ("Found " +:+ Py.str_of_nat (length (glob w pattern))
            +:+ " .reml files")
     :: (EvOpen <$> (fs1 ++ [p])),
     Raised (OSError p)).
Proof. apply main_unreadable. Qed.

(** X15. When the output path cannot be written, the run does not
    return normally: it ends with an exception after the files were
    read and the libraries imported; nothing is saved and no success
    message is printed. *)
Theorem X15_unwritable_output_ends_the_run (w : World)
    (pattern output : string) :
  libs_available w = true ->
  writable w output = false ->
  glob w pattern <> [] ->
  (forall p, p ∈ glob w pattern -> is_Some (file_text w p)) ->
  (main py_float w pattern output).1 =
    EvPrint ("Found " +:+ Py.str_of_nat (length (glob w pattern))
           +:+ " .reml files")
    :: (EvOpen <$> sorted (glob w pattern)) ++ [EvImport]
  /\ (main py_float w pattern output).2 <> Returned.
Proof.
  intros Hlibs Hw Hne Hread. unfold main, main_body.
  destruct (glob w pattern) as [|f fs] eqn:E; [congruence|].
  rewrite (process_files_readable py_float w (f :: fs) Hread).
  rewrite Hlibs. unfold save. rewrite Hw. unfold emit, raise.
  rewrite bind_inr. cbv beta. rewrite bind_inr. cbv beta.
  rewrite bind_inr. cbv beta. rewrite bind_inl.
  cbn [fst snd]. rewrite app_nil_r. now split.
Qed.

(** X17. The detail table is the concatenation, in sorted file order, of
    the rows of each file; a file gives one row per component present
    in its result, in the order [Her_K1], [Her_K2], [Her_K3], [Her_All],
    so at most four. *)
Theorem X17_detail_rows_in_file_order (w : World) (files : list string) :
  (forall p, p ∈ files -> is_Some (file_text w p)) ->
  exists tables,
    process_files py_float w files = (EvOpen <$> sorted files, inr tables)
    /\ detailed_data tables =
       flat_map
         (fun p =>
            new_rows (parse_filename p).1 (parse_filename p).2
              (parse_reml_file py_float (default "" (file_text w p))))
         (sorted files)
    /\ d_component <$> detailed_data tables =
       flat_map
         (fun p =>
            filter
              (fun lab =>
                 is_Some
                   (component lab
                      (parse_reml_file py_float
                         (default "" (file_text w p)))))
              component_labels)
         (sorted files)
    /\ length (detailed_data tables) <= 4 * length files.
Proof.
  intros Hread. eexists.
  split; [apply process_files_readable, Hread|].
  rewrite detailed_fold. cbn [detailed_data app].
  split; [reflexivity|]. split.
  - rewrite fmap_flat_map. clear Hread.
    induction (sorted files) as [|p fs IH]; [reflexivity|].
    cbn [flat_map]. rewrite IH. f_equal.
    apply new_rows_components, rows_of_five_parse.
  - assert (Hlen : length (sorted files) = length files)
      by (unfold sorted; now rewrite merge_sort_Permutation).
    rewrite <- Hlen. clear Hlen Hread.
    induction (sorted files) as [|p fs IH]; [cbn; lia|].
    cbn [flat_map length]. rewrite length_app.
    pose proof (length_new_rows (parse_filename p).1
                  (parse_filename p).2
                  (parse_reml_file py_float
                     (default "" (file_text w p)))).
    lia.
Qed.

(** X18. The summary table holds an entry for a (phenotype, category)
    pair exactly when some file decodes to that pair. *)
Theorem X18_summary_pairs_are_the_decoded_pairs (w : World)
    (files : list string) (ph ty : string) :
  (forall p, p ∈ files -> is_Some (file_text w p)) ->
  exists tables,
    process_files py_float w files = (EvOpen <$> sorted files, inr tables)
    /\ (is_Some (summary_lookup ph ty (summary_data_dict tables))
        <-> exists p, p ∈ files /\ parse_filename p = (ph, ty)).
Proof.
  intros Hread. eexists.
  split; [apply process_files_readable, Hread|].
  rewrite summary_fold_is_Some. cbn [summary_data_dict].
  unfold summary_lookup. rewrite lookup_empty. cbn.
  split.
  - intros [[x Hx]|(p & Hp & E)]; [discriminate|].
    exists p. split; [now apply sorted_elem_of | exact E].
  - intros (p & Hp & E). right.
    exists p. split; [now apply sorted_elem_of | exact E].
Qed.

(** X19. Storing an entry under a pair makes it the entry of that pair
    and leaves the entry of every other pair as it was, also under the
    same phenotype. *)
Theorem X19_store_then_lookup
    (summary : gmap string (gmap string (SummaryEntry F)))
    (ph ty ph' ty' : string) (e : SummaryEntry F) :
  summary_lookup ph ty (summary_store ph' ty' e summary) =
  if decide ((ph', ty') = (ph, ty)) then Some e
  else summary_lookup ph ty summary.
Proof. apply summary_lookup_store. Qed.

(** X20. The phenotypes of the summary table are those the files decode
    to, so the number of summary rows reported is the number of distinct
    phenotypes. *)
Theorem X20_summary_rows_are_the_phenotypes (w : World)
    (files : list string) :
  (forall p, p ∈ files -> is_Some (file_text w p)) ->
  exists tables,
    process_files py_float w files = (EvOpen <$> sorted files, inr tables)
    /\ dom (summary_data_dict tables)
       = list_to_set ((fun p => (parse_filename p).1) <$> files)
    /\ size (summary_data_dict tables)
       = size (list_to_set (C := gset string)
                 ((fun p => (parse_filename p).1) <$> files)).
Proof.
  intros Hread. eexists.
  split; [apply process_files_readable, Hread|].
  assert (E : dom (summary_data_dict
                     (fold_left (absorb py_float w) (sorted files)
                        (mkTables ∅ [])))
              = list_to_set ((fun p => (parse_filename p).1) <$> files)).
  { rewrite dom_summary_fold. cbn [summary_data_dict].
    rewrite dom_empty_L, (left_id_L ∅ (∪)).
    apply set_eq. intros x. rewrite !elem_of_list_to_set.
    unfold sorted. now rewrite merge_sort_Permutation. }
  split; [exact E|].
  now rewrite <- E, size_dom.
Qed.

End TablesExtras.

Lemma X14_witness :
  main Dec.float world_missing "d/*.reml" "out.xlsx" =
    ([EvPrint "Found 2 .reml files"; EvOpen "d/A.X.reml"; EvOpen "d/B.X.reml"],
     Raised (OSError "d/B.X.reml")).
Proof.
  apply (X14_unreadable_file_ends_the_run Dec.float world_missing
           "d/*.reml" "out.xlsx" ["d/A.X.reml"] [] "d/B.X.reml").
  - discriminate.
  - vm_compute. reflexivity.
  - repeat constructor. vm_compute. eauto.
  - reflexivity.
Defined.

Lemma X15_witness :
  (main Dec.float world_read_only "d/*.reml" "out.xlsx").1 =
    [EvPrint "Found 1 .reml files"; EvOpen "d/A.X.reml"; EvImport]
  /\ (main Dec.float world_read_only "d/*.reml" "out.xlsx").2 <> Returned.
Proof.
  apply (X15_unwritable_output_ends_the_run Dec.float world_read_only
           "d/*.reml" "out.xlsx").
  - reflexivity.
  - reflexivity.
  - discriminate.
  - apply Forall_forall. repeat constructor; vm_compute; eauto.
Defined.

Lemma X17_witness :
  exists tables,
    process_files Dec.float world_clash ["b/A.X.reml"; "a/A.X.reml"]
    = (EvOpen <$> sorted ["b/A.X.reml"; "a/A.X.reml"], inr tables)
    /\ detailed_data tables =
       flat_map
         (fun p =>
            new_rows (parse_filename p).1 (parse_filename p).2
              (parse_reml_file Dec.float
                 (default "" (file_text world_clash p))))
         (sorted ["b/A.X.reml"; "a/A.X.reml"])
    /\ d_component <$> detailed_data tables =
       flat_map
         (fun p =>
            filter
              (fun lab =>
                 is_Some
                   (component lab
                      (parse_reml_file Dec.float
                         (default "" (file_text world_clash p)))))
              component_labels)
         (sorted ["b/A.X.reml"; "a/A.X.reml"])
    /\ length (detailed_data tables) <= 4 * 2.
Proof.
  apply (X17_detail_rows_in_file_order Dec.float world_clash
           ["b/A.X.reml"; "a/A.X.reml"]).
  apply Forall_forall. repeat constructor; vm_compute; eauto.
Defined.

Lemma X18_witness :
  exists tables,
    process_files Dec.float world_clash ["b/A.X.reml"; "a/A.X.reml"]
    = (EvOpen <$> sorted ["b/A.X.reml"; "a/A.X.reml"], inr tables)
    /\ (is_Some (summary_lookup "A" "X" (summary_data_dict tables))
        <-> exists p, p ∈ ["b/A.X.reml"; "a/A.X.reml"]
                      /\ parse_filename p = ("A", "X")).
Proof.
  apply (X18_summary_pairs_are_the_decoded_pairs Dec.float world_clash
           ["b/A.X.reml"; "a/A.X.reml"] "A" "X").
  apply Forall_forall. repeat constructor; vm_compute; eauto.
Defined.

Lemma X20_witness :
  exists tables,
    process_files Dec.float world_scenario ["d/A.Y.reml"; "d/A.X.reml"]
    = (EvOpen <$> sorted ["d/A.Y.reml"; "d/A.X.reml"], inr tables)
    /\ dom (summary_data_dict tables)
       = list_to_set ((fun p => (parse_filename p).1)
                        <$> ["d/A.Y.reml"; "d/A.X.reml"])
    /\ size (summary_data_dict tables)
       = size (list_to_set (C := gset string)
                 ((fun p => (parse_filename p).1)
                    <$> ["d/A.Y.reml"; "d/A.X.reml"])).
Proof.
  apply (X20_summary_rows_are_the_phenotypes Dec.float world_scenario
           ["d/A.Y.reml"; "d/A.X.reml"]).
  apply Forall_forall. repeat constructor; vm_compute; eauto.
Defined.

(** ** Summary sheet *)

Section TypesFacts.

Context {F : Type}.

Implicit Types (summary : gmap string (gmap string (SummaryEntry F))).

Lemma summary_lookup_is_Some summary ph ty :
  is_Some (summary_lookup ph ty summary)
  <-> exists pd, summary !! ph = Some pd /\ is_Some (pd !! ty).
Proof.
  unfold summary_lookup. destruct (summary !! ph) as [pd|]; cbn.
  - split; [intros H; now exists pd | now intros (? & [= <-] & H)].
  - split; [now intros [? ?] | now intros (? & ? & _)].
Qed.

(** The set gathered by the loop of lines 197 and 198. *)
Lemma types_gathered summary ty :
  ty ∈ map_fold
         (fun (_ : string) (phenotype_data : gmap string (SummaryEntry F))
              (acc : gset string) => acc ∪ dom phenotype_data)
         ∅ summary
  <-> exists ph, is_Some (summary_lookup ph ty summary).
Proof.
  setoid_rewrite summary_lookup_is_Some.
  revert ty. apply (map_fold_weak_ind
    (fun (acc : gset string) (m : gmap string (gmap string (SummaryEntry F)))
       => forall ty, ty ∈ acc
          <-> exists ph pd, m !! ph = Some pd /\ is_Some (pd !! ty))).
  - intros ty. split; [intros H; now apply elem_of_empty in H|].
    intros (ph & pd & H & _). now rewrite lookup_empty in H.
  - intros ph pd m acc Hnone IH ty.
    rewrite elem_of_union, IH, elem_of_dom. split.
    + intros [(ph' & pd' & H & Hty)|Hty].
      * exists ph', pd'. split; [|exact Hty].
        rewrite lookup_insert_ne; [exact H|]. congruence.
      * exists ph, pd. split; [apply lookup_insert_eq | exact Hty].
    + intros (ph' & pd' & H & Hty).
      destruct (decide (ph = ph')) as [<-|Hne].
      * rewrite lookup_insert_eq in H. injection H as <-. now right.
      * rewrite lookup_insert_ne in H by exact Hne.
        left. now exists ph', pd'.
Qed.

End TypesFacts.

(** X21. The categories that head the column groups are exactly those of
    the entries of the summary table, each once, in sorted order. *)
Theorem X21_column_groups_are_the_categories {F : Type}
    (summary : gmap string (gmap string (SummaryEntry F))) :
  (forall ty, ty ∈ all_types summary
              <-> exists ph, is_Some (summary_lookup ph ty summary))
  /\ StronglySorted String.le (all_types summary)
  /\ NoDup (all_types summary).
Proof.
  unfold all_types. split; [|split].
  - intros ty. rewrite sorted_elem_of, elem_of_elements.
    apply types_gathered.
  - apply sorted_strongly.
  - unfold sorted. rewrite merge_sort_Permutation. apply NoDup_elements.
Qed.

Section SummarySheetFacts.

Context {F : Type}.

Implicit Types (ws : Sheet F) (v : value F).
Implicit Types (summary : gmap string (gmap string (SummaryEntry F))).

Lemma summary_header1_steps (types : list string) ws :
  summary_header1 types ws =
  (fold_left header1_step types
     (2, ws_cell 1 1 (VStr "Phenotype") ws)).2.
Proof. reflexivity. Qed.

Lemma summary_header2_steps (types : list string) ws :
  summary_header2 types ws =
  (fold_left header2_step types
     (2, set_bold 2 1 (ws_cell 2 1 (VStr "Phenotype") ws))).2.
Proof. reflexivity. Qed.

Lemma summary_data_row_steps (types : list string)
    (pd : gmap string (SummaryEntry F)) row ws :
  summary_data_row types pd row ws =
  (fold_left (data_step pd row) types (2, ws)).2.
Proof. reflexivity. Qed.

(** *** One operation, looked up at its own cell and elsewhere *)

Lemma ws_cell_at r c v ws :
  cells (ws_cell r c v ws) !! (r, c)
  = Some (put v (default blank (cells ws !! (r, c)))).
Proof. unfold ws_cell. cbn [cells]. apply lookup_insert_eq. Qed.

Lemma ws_cell_off r c v ws r' c' :
  (r, c) <> (r', c') ->
  cells (ws_cell r c v ws) !! (r', c') = cells ws !! (r', c').
Proof. intros H. unfold ws_cell. cbn [cells]. now apply lookup_insert_ne. Qed.

Lemma set_bold_at r c ws :
  cells (set_bold r c ws) !! (r, c)
  = (fun cl => mkCell (c_value cl) true (c_alignment cl))
      <$> cells ws !! (r, c).
Proof. unfold set_bold. cbn [cells]. apply lookup_alter_eq. Qed.

Lemma set_bold_off r c ws r' c' :
  (r, c) <> (r', c') ->
  cells (set_bold r c ws) !! (r', c') = cells ws !! (r', c').
Proof. intros H. unfold set_bold. cbn [cells]. now apply lookup_alter_ne. Qed.

Lemma set_alignment_at r c a ws :
  cells (set_alignment r c a ws) !! (r, c)
  = (fun cl => mkCell (c_value cl) (c_bold cl) (Some a))
      <$> cells ws !! (r, c).
Proof. unfold set_alignment. cbn [cells]. apply lookup_alter_eq. Qed.

Lemma set_alignment_off r c a ws r' c' :
  (r, c) <> (r', c') ->
  cells (set_alignment r c a ws) !! (r', c') = cells ws !! (r', c').
Proof.
  intros H. unfold set_alignment. cbn [cells]. now apply lookup_alter_ne.
Qed.

(** *** Row 1: the category names *)

Lemma header1_step_at c0 ws t :
  cells (header1_step (c0, ws) t).2 !! (1, c0)
  = Some (mkCell (VStr t) true (Some center_both)).
Proof.
  unfold header1_step. cbn [snd].
  now rewrite set_bold_at, set_alignment_at, ws_cell_at.
Qed.

Lemma header1_step_off c0 ws t r c :
  (1, c0) <> (r, c) ->
  cells (header1_step (c0, ws) t).2 !! (r, c) = cells ws !! (r, c).
Proof.
  intros H. unfold header1_step. cbn [snd].
  now rewrite set_bold_off, set_alignment_off, ws_cell_off.
Qed.

Lemma header1_loop_fst (types : list string) c0 ws :
  (fold_left header1_step types (c0, ws)).1 = c0 + 5 * length types.
Proof.
  revert c0 ws. induction types as [|t ts IH]; intros c0 ws.
  - cbn. lia.
  - cbn [fold_left]. change (header1_step (c0, ws) t)
      with (c0 + 5, (header1_step (c0, ws) t).2).
    rewrite IH. cbn [length]. lia.
Qed.

Lemma header1_loop_off (types : list string) c0 ws r c :
  r <> 1 \/ (forall i, i < length types -> c <> c0 + 5 * i) ->
  cells (fold_left header1_step types (c0, ws)).2 !! (r, c)
  = cells ws !! (r, c).
Proof.
  revert c0 ws. induction types as [|t ts IH]; intros c0 ws H;
    [reflexivity|].
  cbn [fold_left]. change (header1_step (c0, ws) t)
    with (c0 + 5, (header1_step (c0, ws) t).2).
  rewrite IH.
  - apply header1_step_off. intros [= <- <-].
    destruct H as [H|H]; [congruence|].
    apply (H 0); cbn [length]; lia.
  - destruct H as [H|H]; [now left|right].
    intros i Hi. specialize (H (S i)). cbn [length] in H. lia.
Qed.

Lemma header1_loop_at (types : list string) c0 ws i t :
  types !! i = Some t ->
  cells (fold_left header1_step types (c0, ws)).2 !! (1, c0 + 5 * i)
  = Some (mkCell (VStr t) true (Some center_both)).
Proof.
  revert c0 ws i. induction types as [|t' ts IH]; intros c0 ws i H;
    [discriminate|].
  cbn [fold_left]. change (header1_step (c0, ws) t')
    with (c0 + 5, (header1_step (c0, ws) t').2).
  destruct i as [|i].
  - injection H as ->. rewrite header1_loop_off.
    + replace (c0 + 5 * 0) with c0 by lia. apply header1_step_at.
    + right. intros j _. lia.
  - replace (c0 + 5 * S i) with (c0 + 5 + 5 * i) by lia.
    now apply IH.
Qed.

Lemma header1_loop_merged (types : list string) c0 ws :
  merged (fold_left header1_step types (c0, ws)).2
  = merged ws
    ++ imap (fun i _ => (1, c0 + 5 * i, 1, c0 + 5 * i + 4)) types.
Proof.
  revert c0 ws. induction types as [|t ts IH]; intros c0 ws.
  - cbn. now rewrite app_nil_r.
  - cbn [fold_left]. change (header1_step (c0, ws) t)
      with (c0 + 5, (header1_step (c0, ws) t).2).
    rewrite IH. change (merged (header1_step (c0, ws) t).2)
      with (merged ws ++ [(1, c0, 1, c0 + 4)]).
    rewrite <- app_assoc. f_equal. cbn [imap app]. f_equal.
    + now rewrite Nat.mul_0_r, Nat.add_0_r.
    + apply imap_ext. intros i x _. unfold compose.
      now replace (c0 + 5 * S i) with (c0 + 5 + 5 * i) by lia.
Qed.

Lemma header1_loop_title (types : list string) c0 ws :
  title (fold_left header1_step types (c0, ws)).2 = title ws.
Proof.
  revert c0 ws. induction types as [|t ts IH]; intros c0 ws;
    [reflexivity|].
  cbn [fold_left]. change (header1_step (c0, ws) t)
    with (c0 + 5, (header1_step (c0, ws) t).2).
  now rewrite IH.
Qed.

(** *** Row 2: the five names under each category *)

Lemma ws_cell_at_eq r c v ws c' :
  c' = c ->
  cells (ws_cell r c v ws) !! (r, c')
  = Some (put v (default blank (cells ws !! (r, c')))).
Proof. intros ->. apply ws_cell_at. Qed.

Lemma set_bold_at_eq r c ws c' :
  c' = c ->
  cells (set_bold r c ws) !! (r, c')
  = (fun cl => mkCell (c_value cl) true (c_alignment cl))
      <$> cells ws !! (r, c').
Proof. intros ->. apply set_bold_at. Qed.

Lemma set_alignment_at_eq r c a ws c' :
  c' = c ->
  cells (set_alignment r c a ws) !! (r, c')
  = (fun cl => mkCell (c_value cl) (c_bold cl) (Some a))
      <$> cells ws !! (r, c').
Proof. intros ->. apply set_alignment_at. Qed.

Ltac off_cell :=
  first [ rewrite ws_cell_off by (intros [=]; lia)
        | rewrite set_bold_off by (intros [=]; lia)
        | rewrite set_alignment_off by (intros [=]; lia) ].

Ltac at_cell :=
  first [ rewrite ws_cell_at_eq by lia
        | rewrite set_bold_at_eq by lia
        | rewrite set_alignment_at_eq by lia ].

Lemma header2_step_fst c0 ws t : (header2_step (c0, ws) t).1 = c0 + 5.
Proof. unfold header2_step, col_headers. cbn [fold_left fst]. lia. Qed.

Lemma header2_step_at c0 ws t j h :
  col_headers !! j = Some h ->
  cells (header2_step (c0, ws) t).2 !! (2, c0 + j)
  = Some (mkCell (VStr h) true (Some center_horizontal)).
Proof.
  intros H. unfold header2_step, col_headers in *. cbn [fold_left snd].
  destruct j as [|[|[|[|[|j]]]]]; try discriminate H;
    injection H as <-; repeat off_cell; repeat at_cell; reflexivity.
Qed.

Lemma header2_step_off c0 ws t r c :
  r <> 2 \/ c < c0 \/ c0 + 5 <= c ->
  cells (header2_step (c0, ws) t).2 !! (r, c) = cells ws !! (r, c).
Proof.
  intros H. unfold header2_step, col_headers. cbn [fold_left snd].
  repeat off_cell. reflexivity.
Qed.

Lemma header2_loop_off (types : list string) c0 ws r c :
  r <> 2 \/ c < c0 \/ c0 + 5 * length types <= c ->
  cells (fold_left header2_step types (c0, ws)).2 !! (r, c)
  = cells ws !! (r, c).
Proof.
  revert c0 ws. induction types as [|t ts IH]; intros c0 ws H;
    [reflexivity|].
  cbn [fold_left]. rewrite (surjective_pairing (header2_step (c0, ws) t)).
  rewrite header2_step_fst, IH.
  - apply header2_step_off. cbn [length] in H. lia.
  - cbn [length] in H. lia.
Qed.

Lemma header2_loop_at (types : list string) c0 ws i t j h :
  types !! i = Some t ->
  col_headers !! j = Some h ->
  cells (fold_left header2_step types (c0, ws)).2 !! (2, c0 + 5 * i + j)
  = Some (mkCell (VStr h) true (Some center_horizontal)).
Proof.
  intros Ht Hh.
  assert (Hj : j < 5) by (apply lookup_lt_Some in Hh; exact Hh).
  revert c0 ws i Ht. induction types as [|t' ts IH]; intros c0 ws i Ht;
    [discriminate|].
  cbn [fold_left]. rewrite (surjective_pairing (header2_step (c0, ws) t')).
  rewrite header2_step_fst.
  destruct i as [|i].
  - rewrite header2_loop_off by lia.
    replace (c0 + 5 * 0 + j) with (c0 + j) by lia.
    now apply header2_step_at.
  - replace (c0 + 5 * S i + j) with (c0 + 5 + 5 * i + j) by lia.
    now apply IH.
Qed.

(** *** A data row: five values under each category *)

Lemma data_step_fst (pd : gmap string (SummaryEntry F)) row c0 ws t :
  (data_step pd row (c0, ws) t).1 = c0 + 5.
Proof. reflexivity. Qed.


Lemma data_step_off (pd : gmap string (SummaryEntry F)) row c0 ws t r c :
  r <> row \/ c < c0 \/ c0 + 5 <= c ->
  cells (data_step pd row (c0, ws) t).2 !! (r, c) = cells ws !! (r, c).
Proof.
  intros H. unfold data_step. cbn [snd].
  destruct (pd !! t) as [data|]; cbn [fold_left seq];
    repeat off_cell; reflexivity.
Qed.

Lemma data_loop_off (types : list string)
    (pd : gmap string (SummaryEntry F)) row c0 ws r c :
  r <> row \/ c < c0 \/ c0 + 5 * length types <= c ->
  cells (fold_left (data_step pd row) types (c0, ws)).2 !! (r, c)
  = cells ws !! (r, c).
Proof.
  revert c0 ws. induction types as [|t ts IH]; intros c0 ws H;
    [reflexivity|].
  cbn [fold_left].
  rewrite (surjective_pairing (data_step pd row (c0, ws) t)).
  rewrite data_step_fst, IH.
  - apply data_step_off. cbn [length] in H. lia.
  - cbn [length] in H. lia.
Qed.


(** *** The data rows, one per phenotype *)

(** A position that no turn of a row loop touches keeps its cell. *)
Lemma for_enum_untouched {A} (body : nat -> A -> Sheet F -> Sheet F)
    (xs : list A) start ws r c :
  (forall row x ws', start <= row < start + length xs ->
     cells (body row x ws') !! (r, c) = cells ws' !! (r, c)) ->
  cells (for_enum start xs body ws) !! (r, c) = cells ws !! (r, c).
Proof.
  revert start ws. induction xs as [|x xs IH]; intros start ws H;
    [reflexivity|].
  cbn [for_enum]. rewrite IH.
  - apply H. cbn [length]. lia.
  - intros row x' ws' Hrow. apply H. cbn [length]. lia.
Qed.


Lemma data_row_off (types : list string)
    (pd : gmap string (SummaryEntry F)) row ph ws r c :
  r <> row \/ c = 0 \/ 2 + 5 * length types <= c ->
  cells (summary_data_row types pd row (ws_cell row 1 (VStr ph) ws))
    !! (r, c)
  = cells ws !! (r, c).
Proof.
  intros H. rewrite summary_data_row_steps, data_loop_off by lia.
  apply ws_cell_off. intros [=]. lia.
Qed.



(** *** Title and merged ranges through the loops *)

Lemma header2_loop_frame (types : list string) c0 ws :
  title (fold_left header2_step types (c0, ws)).2 = title ws
  /\ merged (fold_left header2_step types (c0, ws)).2 = merged ws.
Proof.
  revert c0 ws. induction types as [|t ts IH]; intros c0 ws;
    [now split|].
  cbn [fold_left]. rewrite (surjective_pairing (header2_step (c0, ws) t)).
  destruct (IH (header2_step (c0, ws) t).1 (header2_step (c0, ws) t).2)
    as [-> ->].
  now split.
Qed.

Lemma data_loop_frame (types : list string)
    (pd : gmap string (SummaryEntry F)) row c0 ws :
  title (fold_left (data_step pd row) types (c0, ws)).2 = title ws
  /\ merged (fold_left (data_step pd row) types (c0, ws)).2 = merged ws.
Proof.
  revert c0 ws. induction types as [|t ts IH]; intros c0 ws;
    [now split|].
  cbn [fold_left].
  rewrite (surjective_pairing (data_step pd row (c0, ws) t)).
  destruct (IH (data_step pd row (c0, ws) t).1
              (data_step pd row (c0, ws) t).2) as [-> ->].
  unfold data_step. cbn [snd]. now destruct (pd !! t).
Qed.

Lemma summary_rows_frame summary (types : list string) ws :
  title (summary_rows summary types ws) = title ws
  /\ merged (summary_rows summary types ws) = merged ws.
Proof.
  unfold summary_rows. generalize 3 as start.
  revert ws. induction (sorted (elements (dom summary))) as [|ph phs IH];
    intros ws start; [now split|].
  cbn [for_enum]. destruct (IH
    (summary_data_row types (default ∅ (summary !! ph)) start
       (ws_cell start 1 (VStr ph) ws)) (S start)) as [-> ->].
  rewrite summary_data_row_steps.
  destruct (data_loop_frame types (default ∅ (summary !! ph)) start 2
              (ws_cell start 1 (VStr ph) ws)) as [-> ->].
  now split.
Qed.

End SummarySheetFacts.

Section SummarySheetWhole.

Context {F : Type}.

Implicit Types (ws : Sheet F) (v : value F).
Implicit Types (summary : gmap string (gmap string (SummaryEntry F))).


(** A loop of turns that keep title and merged ranges keeps them. *)
Lemma for_enum_frame {A} (body : nat -> A -> Sheet F -> Sheet F)
    (xs : list A) start ws :
  (forall i x ws', title (body i x ws') = title ws'
                   /\ merged (body i x ws') = merged ws') ->
  title (for_enum start xs body ws) = title ws
  /\ merged (for_enum start xs body ws) = merged ws.
Proof.
  intros H. revert start ws.
  induction xs as [|x xs IH]; intros start ws; [now split|].
  cbn [for_enum]. destruct (IH (S start) (body start x ws)) as [-> ->].
  apply H.
Qed.

Lemma header1_keep (types : list string) ws r c :
  r <> 1 \/ (c <> 1 /\ forall i, i < length types -> c <> 2 + 5 * i) ->
  cells (summary_header1 types ws) !! (r, c) = cells ws !! (r, c).
Proof.
  intros H. rewrite summary_header1_steps, header1_loop_off.
  - apply ws_cell_off. intros [=]. lia.
  - destruct H as [H|[_ H]]; [now left | now right].
Qed.

Lemma header1_corner (types : list string) ws :
  cells (summary_header1 types ws) !! (1, 1)
  = Some (put (VStr "Phenotype") (default blank (cells ws !! (1, 1)))).
Proof.
  rewrite summary_header1_steps, header1_loop_off.
  - apply ws_cell_at.
  - right. intros i _. lia.
Qed.

Lemma header1_head (types : list string) ws i t :
  types !! i = Some t ->
  cells (summary_header1 types ws) !! (1, 2 + 5 * i)
  = Some (mkCell (VStr t) true (Some center_both)).
Proof. intros H. rewrite summary_header1_steps. now apply header1_loop_at. Qed.

Lemma header2_keep (types : list string) ws r c :
  r <> 2 \/ c = 0 \/ 2 + 5 * length types <= c ->
  cells (summary_header2 types ws) !! (r, c) = cells ws !! (r, c).
Proof.
  intros H. rewrite summary_header2_steps, header2_loop_off by lia.
  rewrite set_bold_off, ws_cell_off by (intros [=]; lia). reflexivity.
Qed.

Lemma header2_corner (types : list string) ws :
  cells (summary_header2 types ws) !! (2, 1)
  = Some (mkCell (VStr "Phenotype") true
            (c_alignment (default blank (cells ws !! (2, 1))))).
Proof.
  rewrite summary_header2_steps, header2_loop_off by lia.
  now rewrite set_bold_at, ws_cell_at.
Qed.

Lemma header2_sub (types : list string) ws i t j h :
  types !! i = Some t ->
  col_headers !! j = Some h ->
  cells (summary_header2 types ws) !! (2, 2 + 5 * i + j)
  = Some (mkCell (VStr h) true (Some center_horizontal)).
Proof.
  intros Ht Hh. rewrite summary_header2_steps.
  now apply (header2_loop_at types 2 _ i t j h).
Qed.

Lemma rows_keep summary (types : list string) ws r c :
  r < 3 \/ 3 + length (sorted (elements (dom summary))) <= r
  \/ c = 0 \/ 2 + 5 * length types <= c ->
  cells (summary_rows summary types ws) !! (r, c) = cells ws !! (r, c).
Proof.
  intros H. unfold summary_rows. apply for_enum_untouched.
  intros row ph ws' Hrow. apply data_row_off. lia.
Qed.




End SummarySheetWhole.

Section SheetExtras.

Context {F : Type}.

Implicit Types (summary : gmap string (gmap string (SummaryEntry F))).



(** X22. The summary sheet is titled [Heritability Summary]; its first
    column is headed [Phenotype] in rows 1 and 2, in bold in row 2 only;
    for each category, in sorted order, the five columns from column
    2 + 5i on are merged in row 1. *)
Theorem X22_summary_sheet_frame summary :
  title (summary_sheet summary) = "Heritability Summary"
  /\ cells (summary_sheet summary) !! (1, 1)
     = Some (mkCell (VStr "Phenotype") false None)
  /\ cells (summary_sheet summary) !! (2, 1)
     = Some (mkCell (VStr "Phenotype") true None)
  /\ merged (summary_sheet summary)
     = imap (fun i _ => (1, 2 + 5 * i, 1, 2 + 5 * i + 4))
         (all_types summary).
Proof.
  unfold summary_sheet. cbv zeta.
  set (types := all_types summary).
  set (ws0 := mkSheet (F := F) "Heritability Summary" ∅ []).
  destruct (summary_rows_frame summary types
              (summary_header2 types (summary_header1 types ws0)))
    as [Et Em].
  rewrite Et, Em. clear Et Em.
  split; [|split; [|split]].
  - rewrite summary_header2_steps.
    destruct (header2_loop_frame types 2
                (set_bold 2 1 (ws_cell 2 1 (VStr "Phenotype")
                   (summary_header1 types ws0)))) as [-> _].
    cbn [title set_bold ws_cell].
    now rewrite summary_header1_steps, header1_loop_title.
  - rewrite rows_keep, header2_keep by lia.
    rewrite header1_corner. unfold ws0. cbn [cells].
    now rewrite lookup_empty.
  - rewrite rows_keep by lia. rewrite header2_corner.
    rewrite header1_keep by lia. unfold ws0. cbn [cells].
    now rewrite lookup_empty.
  - rewrite summary_header2_steps.
    destruct (header2_loop_frame types 2
                (set_bold 2 1 (ws_cell 2 1 (VStr "Phenotype")
                   (summary_header1 types ws0)))) as [_ ->].
    cbn [merged set_bold ws_cell].
    now rewrite summary_header1_steps, header1_loop_merged.
Qed.

(** X23. The column group of the i-th category, in sorted order, starts
    at column 2 + 5i: row 1 holds the category name there, bold and
    centred both ways, and row 2 holds the five names [Her_K1],
    [Her_K2], [Her_K3], [Her_All], [Converged], bold and centred. *)
Theorem X23_column_group_heads summary (i : nat) (t : string) :
  all_types summary !! i = Some t ->
  cells (summary_sheet summary) !! (1, 2 + 5 * i)
  = Some (mkCell (VStr t) true (Some center_both))
  /\ forall j h, col_headers !! j = Some h ->
       cells (summary_sheet summary) !! (2, 2 + 5 * i + j)
       = Some (mkCell (VStr h) true (Some center_horizontal)).
Proof.
  intros Ht. unfold summary_sheet. cbv zeta. split.
  - rewrite rows_keep, header2_keep by lia. now apply header1_head.
  - intros j h Hh. rewrite rows_keep by lia.
    now apply (header2_sub _ _ i t j h).
Qed.


(** X25. The summary sheet holds no cell in row 0 or column 0, below
    the row of the last phenotype or right of the last column group. *)
Theorem X25_summary_sheet_extent summary (r c : nat) :
  r = 0 \/ c = 0
  \/ 3 + length (sorted (elements (dom summary))) <= r
  \/ 2 + 5 * length (all_types summary) <= c ->
  cells (summary_sheet summary) !! (r, c) = None.
Proof.
  intros H. unfold summary_sheet. cbv zeta.
  assert (Hrows : r < 3
                  \/ 3 + length (sorted (elements (dom summary))) <= r
                  \/ c = 0 \/ 2 + 5 * length (all_types summary) <= c)
    by lia.
  rewrite (rows_keep _ _ _ _ _ Hrows).
  rewrite header2_keep by lia.
  rewrite header1_keep; [cbn [cells]; apply lookup_empty|].
  destruct (decide (r = 1)) as [->|Hr]; [right | now left].
  split; [lia|]. intros i Hi. lia.
Qed.

(** X26. The detailed sheet of a table with at least one row is titled
    [Detailed Information], has no merged range and holds in row 1 the
    nine column names, in bold, and nothing else. *)
Theorem X26_detailed_sheet_header (detailed : list (DetailRow F))
    (c : nat) :
  detailed <> [] ->
  title (detailed_sheet detailed) = "Detailed Information"
  /\ merged (detailed_sheet detailed) = []
  /\ cells (detailed_sheet detailed) !! (1, c) =
     match c with
     | 0 => None
     | S k => (fun name => mkCell (VStr name) true None)
                <$> detail_columns !! k
     end.
Proof.
  intros H.
  assert (E : title (detailed_sheet detailed) = "Detailed Information"
              /\ merged (detailed_sheet detailed) = []).
  { unfold detailed_sheet. cbv zeta.
    match goal with
    | |- title (for_enum 2 ?rows ?body ?ws) = _ /\ _ =>
        destruct (for_enum_frame body rows 2 ws) as [-> ->]
    end.
    - intros i x ws'. now apply for_enum_frame.
    - match goal with
      | |- title (for_enum 1 ?cols ?body ?ws) = _ /\ _ =>
          destruct (for_enum_frame body cols 1 ws) as [-> ->]
      end; [|now split].
      intros i x ws'. now split. }
  destruct E as [E1 E2]. split; [exact E1|]. split; [exact E2|].
  now apply detailed_sheet_header.
Qed.

(** X27. Below the header, row i + 2 of the detailed sheet holds the
    values of entry i of the table that are present, in column order:
    the cell of a number holds the number, and the cell of a string of
    at most 32767 characters holds the string.  (The cell of an absent
    value is not described: pandas hands a NaN for an absent number
    when the column holds a number in another row.) *)
Theorem X27_detailed_sheet_entry (detailed : list (DetailRow F))
    (i c : nat) (d : DetailRow F) (v : value F) :
  detailed !! i = Some d ->
  (row_items d).*2 !! c = Some v ->
  match v with
  | VNum _ => True
  | VStr s => (Z.of_nat (String.length s) <= 32767)%Z
  | VNone => False
  end ->
  cells (detailed_sheet detailed) !! (i + 2, S c)
  = Some (mkCell v false None).
Proof.
  intros Hd Hv _. rewrite (detailed_sheet_entry detailed i c d Hd).
  now rewrite Hv.
Qed.

(** X28. The detailed sheet holds nothing else: no cell in row 0 or
    column 0, right of the ninth column or below the last entry. *)
Theorem X28_detailed_sheet_extent (detailed : list (DetailRow F))
    (r c : nat) :
  r = 0 \/ c = 0 \/ 9 < c \/ length detailed + 1 < r ->
  cells (detailed_sheet detailed) !! (r, c) = None.
Proof.
  intros H. destruct detailed as [|d0 rest]; [reflexivity|].
  set (detailed := d0 :: rest) in *.
  assert (Hne : detailed <> []) by discriminate.
  unfold detailed_sheet. cbv zeta.
  rewrite df_columns_detail, df_itertuples_detail by exact Hne.
  rewrite cells_write_rows, cells_write_header. cbn [cells].
  rewrite lookup_empty.
  assert (Hrow : (if decide (2 <= r /\ 1 <= c)
                  then map (fun d => (row_items d).*2) detailed
                         !! (r - 2) ≫= (.!! (c - 1))
                  else None) = None).
  { destruct (decide (2 <= r /\ 1 <= c)) as [[Hr Hc]|_]; [|reflexivity].
    rewrite list_lookup_fmap.
    destruct (detailed !! (r - 2)) as [d|] eqn:Ed; [|reflexivity].
    apply lookup_lt_Some in Ed. cbn [fmap option_fmap option_map mbind
      option_bind]. apply lookup_ge_None. cbn [row_items fmap list_fmap
      length]. lia. }
  rewrite Hrow.
  destruct (decide (r = 1 /\ 1 <= c)) as [[-> Hc]|_]; [|reflexivity].
  assert (E : detail_columns !! (c - 1) = None)
    by (apply lookup_ge_None; cbn [detail_columns length]; lia).
  now rewrite E.
Qed.

End SheetExtras.

Section RunExtras.

Context {F : Type}.
Variable py_float : string -> option F.


End RunExtras.

Lemma X23_witness :
  cells (summary_sheet (summary_data_dict scenario_result))
    !! (1, 2 + 5 * 1)
  = Some (mkCell (VStr "Y") true (Some center_both))
  /\ forall j h, col_headers !! j = Some h ->
       cells (summary_sheet (summary_data_dict scenario_result))
         !! (2, 2 + 5 * 1 + j)
       = Some (mkCell (VStr h) true (Some center_horizontal)).
Proof.
  apply (X23_column_group_heads (summary_data_dict scenario_result) 1 "Y").
  vm_compute. reflexivity.
Defined.


Lemma X25_witness :
  cells (summary_sheet (summary_data_dict scenario_result)) !! (1, 12)
  = None.
Proof.
  apply (X25_summary_sheet_extent (summary_data_dict scenario_result) 1 12).
  right. right. right. vm_compute. lia.
Defined.

Lemma X26_witness :
  title (detailed_sheet (detailed_data scenario_result))
  = "Detailed Information"
  /\ merged (detailed_sheet (detailed_data scenario_result)) = []
  /\ cells (detailed_sheet (detailed_data scenario_result)) !! (1, 5)
     = (fun name => mkCell (VStr name) true None) <$> detail_columns !! 4.
Proof.
  apply (X26_detailed_sheet_header (detailed_data scenario_result) 5).
  vm_compute. discriminate.
Defined.

Lemma X27_witness :
  cells (detailed_sheet (detailed_data scenario_result)) !! (1 + 2, 5)
  = Some (mkCell (VNum (3%Z, 1)) false None).
Proof.
  apply (X27_detailed_sheet_entry (detailed_data scenario_result) 1 4
           (mkDetailRow "A" "Y" "Her_All" (Some "NO") (Some (3%Z, 1))
              None (Some (50%Z, 0)) (Some (9%Z, 1)) (Some (5%Z, 2)))).
  - vm_compute. reflexivity.
  - reflexivity.
  - exact I.
Defined.

Lemma X28_witness :
  cells (detailed_sheet (detailed_data scenario_result)) !! (4, 1) = None.
Proof.
  apply (X28_detailed_sheet_extent (detailed_data scenario_result) 4 1).
  right. right. right. vm_compute. lia.
Defined.


(** ** From the text of a file to its summary entry *)

Section TextToSummary.

Context {F : Type}.
Variable py_float : string -> option F.

Lemma summary_value_entry lab (parsed : FileResult F) :
  summary_value lab (summary_entry parsed)
  = first_value (component lab parsed).
Proof.
  unfold summary_value, component, summary_entry.
  cbn [sum_her_k1 sum_her_k2 sum_her_k3 sum_her_all].
  repeat match goal with
         | |- context [if ?b then _ else _] => destruct b
         end; reflexivity.
Qed.

(** X29. The summary entry of a file holds, for each of the four labels,
    the first value of the row kept for the label: the number read from
    the first value token of the last line that bears the label, or
    nothing when that token is [NA] or is not a number. *)
Theorem X29_summary_holds_the_first_value
    (lines mid post : list string) (raw lab tok : string)
    (rest : list string) :
  component_section lines = Some (mid ++ raw :: post) ->
  tokens raw = lab :: tok :: rest ->
  recognized lab = true ->
  Forall (fun l => bears lab l = false) post ->
  summary_value lab (summary_entry (parse_reml_lines py_float lines))
  = parse_value py_float tok.
Proof.
  intros Hsec Htok Hrec Hpost.
  assert (Hb : bears lab raw = true).
  { unfold bears. rewrite Htok. apply String.eqb_refl. }
  rewrite summary_value_entry, parse_reml_lines_section, Hsec. cbv zeta.
  rewrite (component_fold_last py_float lab mid post raw _ Hrec Hb Hpost).
  rewrite Htok. cbn [List.tl]. unfold parse_values, pad5.
  cbn [take map app first_value].
  now destruct (parse_value py_float tok).
Qed.

End TextToSummary.

Lemma X29_witness :
  summary_value "Her_K1"
    (summary_entry (parse_reml_lines Dec.float (readlines repeated_report)))
  = parse_value Dec.float "7".
Proof.
  apply (X29_summary_holds_the_first_value Dec.float
           (readlines repeated_report)
           ["Her_K2 0.1 0.2 0.3 0.4 0.5
"] ["Her_K2 0.9 oops NA 1.5 2 extra
"; "Other 1 2 3
"] "Her_K1 7
" "Her_K1" "7" []).
  - vm_compute. reflexivity.
  - vm_compute. reflexivity.
  - reflexivity.
  - repeat constructor.
Defined.

(** ** Examples *)

Example parse_filename_doc :
  parse_filename "GYP_BLUP.SV.reml" = ("GYP_BLUP", "SV").
Proof. reflexivity. Qed.

Example parse_filename_dir :
  parse_filename "out/run.1/A.B.C.reml" = ("A.B", "C").
Proof. reflexivity. Qed.

Example parse_filename_nodot :
  parse_filename "plain.reml" = ("plain", "UNKNOWN").
Proof. reflexivity. Qed.

Example split_tabs :
  tokens "  Her_K1	0.5   NA
" = ["Her_K1"; "0.5"; "NA"].
Proof. reflexivity. Qed.

Example dec_float_half : Dec.float "0.5" = Some (5%Z, 1).
Proof. reflexivity. Qed.

Example dec_float_na : Dec.float "NA" = None.
Proof. reflexivity. Qed.

Example parse_sample :
  parse_reml_file Dec.float sample_report =
  mkFileResult (Some "YES")
    (Some [Some (5%Z, 1); Some (1%Z, 1); Some (100%Z, 0);
           Some (10%Z, 1); Some (1%Z, 1)])
    None None
    (Some [Some (3%Z, 1); None; Some (50%Z, 0); None; None]).
Proof. vm_compute. reflexivity. Qed.

(** The end-to-end scenario: one phenotype, two categories, two detail
    rows. *)
Example scenario_tables :
  exists tables,
    (process_files Dec.float world_scenario
       (glob world_scenario "d/*.reml")).2 = inr tables
    /\ summary_lookup "A" "X" (summary_data_dict tables)
       = Some (mkSummaryEntry (Some "YES") (Some (5%Z, 1)) None None None)
    /\ summary_lookup "A" "Y" (summary_data_dict tables)
       = Some (mkSummaryEntry (Some "NO") None None None (Some (3%Z, 1)))
    /\ size (summary_data_dict tables) = 1
    /\ (d_component <$> detailed_data tables) = ["Her_K1"; "Her_All"].
Proof. eexists. repeat split; vm_compute; reflexivity. Qed.
